(** * Cadatrimmo: the cadastral line parser of [app.py]

    A shallow embedding of [parse_pdf] (src/app.py, lines 13-102): the
    sequential, line-based state machine that turns the text lines of a
    cadastral survey into ownership records, filtered by section and plan.

    Python strings are sequences of Unicode code points, so a character is a
    code point ([N]) and a string a list of them.  The five regular
    expressions of the source are kept as programs for a small backtracking
    matcher that follows the semantics of Python's [re] module on the
    constructs the source uses (literals, sets, categories, greedy
    repetition of a one-character set, capturing groups, [^] and [$]). *)

From Stdlib Require Import List NArith Arith Bool Lia String Ascii.
Import ListNotations.

Set Implicit Arguments.

(** ** Characters and strings *)

Definition char := N.
Bind Scope N_scope with char.
Definition pystr := list char.

(** A literal of the source code, read as code points (ASCII literals only). *)
Definition py (s : string) : pystr := map N_of_ascii (list_ascii_of_string s).

(** The line feed, ['\n']. *)
Definition LF : char := 10.

Definition char_eqb (a b : char) : bool := N.eqb a b.

Fixpoint pystr_eqb (a b : pystr) : bool :=
  match a, b with
  | [], [] => true
  | x :: a', y :: b' => char_eqb x y && pystr_eqb a' b'
  | _, _ => false
  end.

(** [x in xs] on a Python list of strings. *)
Definition py_in (x : pystr) (xs : list pystr) : bool := existsb (pystr_eqb x) xs.

Definition between (lo hi c : char) : bool := N.leb lo c && N.leb c hi.

Definition is_ascii (c : char) : bool := N.ltb c 128.

(** [Py_UNICODE_ISSPACE]: the ASCII table of [_Py_ascii_whitespace] and
    [_PyUnicode_IsWhitespace] beyond it.  It decides [str.strip()],
    and [\s] in a [str] pattern. *)
Definition is_space (c : char) : bool :=
  between 9 13 c || between 28 32 c
  || char_eqb c 133 || char_eqb c 160 || char_eqb c 5760
  || between 8192 8202 c || char_eqb c 8232 || char_eqb c 8233
  || char_eqb c 8239 || char_eqb c 8287 || char_eqb c 12288.

Definition is_upper_AZ (c : char) : bool := between 65 90 c.
Definition is_lower_az (c : char) : bool := between 97 122 c.
Definition is_ascii_digit (c : char) : bool := between 48 57 c.

Definition ascii_lower (c : char) : char := if is_upper_AZ c then (c + 32)%N else c.
Definition ascii_upper (c : char) : char := if is_lower_az c then (c - 32)%N else c.

(** The part of the Unicode character database that the parser consults
    outside ASCII: the decimal digits ([\d]), the alphanumerics ([\w]) and
    the full upper-case mapping ([str.upper]).  The tables belong to the
    Python build, not to the repository, so they are a parameter. *)
Class UnicodeDB := {
  uni_decimal : char -> bool;
  uni_alnum : char -> bool;
  uni_upper : char -> pystr;
  (** no decimal digit is white space *)
  uni_decimal_not_space :
    forall c, uni_decimal c = true -> is_space c = false
}.

(** Tables that are those of Python on Latin-1 (code points below 256) and
    know nothing beyond. *)
Definition latin1_db : UnicodeDB :=
  {| uni_decimal := fun _ => false;
     uni_alnum := fun c =>
       char_eqb c 170 || char_eqb c 178 || char_eqb c 179 || char_eqb c 181
       || between 185 186 c || between 188 190 c
       || between 192 214 c || between 216 246 c || between 248 255 c;
     uni_upper := fun c =>
       if char_eqb c 181 then [924%N]
       else if char_eqb c 223 then [83%N; 83%N]
       else if char_eqb c 255 then [376%N]
       else if between 224 246 c || between 248 254 c then [(c - 32)%N]
       else [c];
     uni_decimal_not_space := fun c H => False_ind _ (Bool.diff_false_true H) |}.

(** ** String methods *)

Fixpoint lstrip (s : pystr) : pystr :=
  match s with
  | c :: s' => if is_space c then lstrip s' else s
  | [] => []
  end.

Definition rstrip (s : pystr) : pystr := rev (lstrip (rev s)).

(** [s.strip()] *)
Definition strip (s : pystr) : pystr := rstrip (lstrip s).

(** [s.replace(' ', '')]: every space character (U+0020) removed. *)
Definition replace_space (s : pystr) : pystr :=
  filter (fun c => negb (char_eqb c 32)) s.

(** [sep.join(xs)] *)
Fixpoint join (sep : pystr) (xs : list pystr) : pystr :=
  match xs with
  | [] => []
  | [x] => x
  | x :: rest => x ++ sep ++ join sep rest
  end.

Fixpoint starts_with (p s : pystr) : bool :=
  match p, s with
  | [], _ => true
  | a :: p', b :: s' => char_eqb a b && starts_with p' s'
  | _ :: _, [] => false
  end.

(** [sub in s] on strings. *)
Fixpoint contains (sub s : pystr) : bool :=
  starts_with sub s ||
  match s with
  | [] => false
  | _ :: s' => contains sub s'
  end.

(** [text.split('\n')]: the pieces between line feeds, at least one. *)
Fixpoint split_lines_aux (cur : pystr) (s : pystr) : list pystr :=
  match s with
  | [] => [rev cur]
  | c :: s' =>
      if char_eqb c LF then rev cur :: split_lines_aux [] s'
      else split_lines_aux (c :: cur) s'
  end.

Definition split_lines (text : pystr) : list pystr := split_lines_aux [] text.

Definition substring (s : pystr) (a b : nat) : pystr := firstn (b - a) (skipn a s).

(** ** The regular-expression matcher *)

Inductive category := CategoryDigit | CategorySpace | CategoryWord.

(** The members of a set, as [sre_parse] produces them. *)
Inductive item :=
| Literal (c : char)
| LiteralIgnore (c : char)
| Range (lo hi : char)
| Category (k : category).

Inductive op :=
| One (cs : list item)
| MaxRepeat (lo : nat) (cs : list item)
| Mark (n : nat)
| AtBeginning
| AtEnd.

Definition marks := list (nat * nat).

Fixpoint get_mark (mk : marks) (n : nat) : option nat :=
  match mk with
  | [] => None
  | (k, p) :: mk' => if Nat.eqb k n then Some p else get_mark mk' n
  end.

(** Greedy repetition: the longest count first, then one less, down to
    the minimum. *)
Fixpoint backtrack (R : Type) (k : nat -> option R) (lo cnt : nat) : option R :=
  if Nat.ltb cnt lo then None
  else match k cnt with
       | Some r => Some r
       | None => match cnt with
                 | O => None
                 | S c' => backtrack k lo c'
                 end
       end.

(** [$] without [re.MULTILINE]: the end of the string, or just before a
    line feed that ends it. *)
Definition at_end (s : pystr) : bool :=
  match s with
  | [] => true
  | [c] => char_eqb c LF
  | _ => false
  end.

Section Parser.

Context {U : UnicodeDB}.

(** [str.isdecimal], one character. *)
Definition is_decimal (c : char) : bool :=
  if is_ascii c then is_ascii_digit c else uni_decimal c.

(** [Py_UNICODE_ISALNUM(ch) || ch == '_'] *)
Definition is_word (c : char) : bool :=
  if is_ascii c
  then is_ascii_digit c || is_upper_AZ c || is_lower_az c || char_eqb c 95
  else uni_alnum c.

(** [s.upper()] *)
Definition upper (s : pystr) : pystr :=
  flat_map (fun c => if is_ascii c then [ascii_upper c] else uni_upper c) s.

(** A literal ASCII letter of a pattern compiled with [re.IGNORECASE]: the
    subject character matches when its lower case is that of the literal,
    or one of its case-folding companions ([_ignorecase_fixes]): dotless i
    for i, long s for s.  U+0130 lowers to i and U+212A to k. *)
Definition ignorecase_matches (c ch : char) : bool :=
  let l := ascii_lower c in
  char_eqb (ascii_lower ch) l
  || (char_eqb l 105 && (char_eqb ch 304 || char_eqb ch 305))
  || (char_eqb l 115 && char_eqb ch 383)
  || (char_eqb l 107 && char_eqb ch 8490).

Definition in_category (k : category) (ch : char) : bool :=
  match k with
  | CategoryDigit => is_decimal ch
  | CategorySpace => is_space ch
  | CategoryWord => is_word ch
  end.

Definition item_matches (it : item) (ch : char) : bool :=
  match it with
  | Literal c => char_eqb ch c
  | LiteralIgnore c => ignorecase_matches c ch
  | Range lo hi => between lo hi ch
  | Category k => in_category k ch
  end.

Definition in_set (cs : list item) (ch : char) : bool :=
  existsb (fun it => item_matches it ch) cs.

(** How many leading characters of [s] are in the set. *)
Fixpoint run_length (cs : list item) (s : pystr) : nat :=
  match s with
  | c :: s' => if in_set cs c then S (run_length cs s') else O
  | [] => O
  end.

(** Match [prog] at position [pos], where [s] is the rest of the subject:
    the end position and the marks, or [None]. *)
Fixpoint exec (prog : list op) (s : pystr) (pos : nat) (mk : marks)
  {struct prog} : option (nat * marks) :=
  match prog with
  | [] => Some (pos, mk)
  | One cs :: rest =>
      match s with
      | c :: s' => if in_set cs c then exec rest s' (S pos) mk else None
      | [] => None
      end
  | MaxRepeat lo cs :: rest =>
      backtrack (fun cnt => exec rest (skipn cnt s) (pos + cnt) mk)
                lo (run_length cs s)
  | Mark n :: rest => exec rest s pos ((n, pos) :: mk)
  | AtBeginning :: rest => if Nat.eqb pos 0 then exec rest s pos mk else None
  | AtEnd :: rest => if at_end s then exec rest s pos mk else None
  end.

(** The leftmost start position at which [prog] matches. *)
Fixpoint search_at (prog : list op) (s : pystr) (pos : nat) : option marks :=
  match exec prog s pos [] with
  | Some (_, mk) => Some mk
  | None =>
      match s with
      | [] => None
      | _ :: s' => search_at prog s' (S pos)
      end
  end.

(** A match object: the subject and the marks of its groups. *)
Record Match := { m_string : pystr; m_marks : marks }.

(** [re.search(pattern, s)] *)
Definition re_search (prog : list op) (s : pystr) : option Match :=
  match search_at prog s 0 with
  | Some mk => Some {| m_string := s; m_marks := mk |}
  | None => None
  end.

(** [re.match(pattern, s)] *)
Definition re_match (prog : list op) (s : pystr) : option Match :=
  match exec prog s 0 [] with
  | Some (_, mk) => Some {| m_string := s; m_marks := mk |}
  | None => None
  end.

(** [m.group(g)]: group [g] lies between the marks [2g-2] and [2g-1].
    Every group of the patterns below takes part in every match, so both
    marks are set whenever there is a match object. *)
Definition group (m : Match) (g : nat) : pystr :=
  match get_mark (m_marks m) (2 * g - 2), get_mark (m_marks m) (2 * g - 1) with
  | Some a, Some b => substring (m_string m) a b
  | _, _ => []
  end.

Definition is_some (A : Type) (o : option A) : bool :=
  match o with Some _ => true | None => false end.

(** ** The patterns of [parse_pdf] *)

Definition lit (s : string) : list op := map (fun c => One [Literal c]) (py s).
Definition lit_ignore (s : string) : list op :=
  map (fun c => One [LiteralIgnore c]) (py s).
Definition spaces0 : op := MaxRepeat 0 [Category CategorySpace].

(** [r"Section\s*:\s*(\w+)\s*Plan\s*:\s*(\d+)"] with [re.IGNORECASE] *)
Definition header_re : list op :=
  lit_ignore "Section" ++ [spaces0] ++ lit ":" ++ [spaces0]
  ++ [Mark 0; MaxRepeat 1 [Category CategoryWord]; Mark 1]
  ++ [spaces0] ++ lit_ignore "Plan" ++ [spaces0] ++ lit ":" ++ [spaces0]
  ++ [Mark 2; MaxRepeat 1 [Category CategoryDigit]; Mark 3].

(** [r"Lot\s+(\d+)"] with [re.IGNORECASE] *)
Definition lot_re : list op :=
  lit_ignore "Lot" ++ [MaxRepeat 1 [Category CategorySpace]]
  ++ [Mark 0; MaxRepeat 1 [Category CategoryDigit]; Mark 1].

(** [r"(\d+\s*/\s*\d+)"] *)
Definition tantiemes_re : list op :=
  [Mark 0; MaxRepeat 1 [Category CategoryDigit]; spaces0]
  ++ lit "/" ++ [spaces0; MaxRepeat 1 [Category CategoryDigit]; Mark 1].

(** The set [[A-Z\s/.'-]]. *)
Definition owner_set : list item :=
  [Range 65 90; Category CategorySpace; Literal 47; Literal 46; Literal 39;
   Literal 45].

(** [r"^[A-Z\s/.'-]{5,}$"] *)
Definition owner_re : list op := [AtBeginning; MaxRepeat 5 owner_set; AtEnd].

(** [r"\d"] *)
Definition digit_re : list op := [One [Category CategoryDigit]].

(** [r"[a-zA-Z]"] *)
Definition alpha_re : list op := [One [Range 97 122; Range 65 90]].

(** ** The parser *)

(** One row of the result, under the column names of the source. *)
Record Row := {
  col_Section : option pystr;
  col_Plan : option pystr;
  col_N_Lot : pystr;
  col_Tantiemes : pystr;
  col_Proprietaires : pystr;
  col_Adresse_Postale_Proprietaire : pystr
}.

(** The local variables of [parse_pdf]. *)
Record State := {
  current_section : option pystr;
  current_plan : option pystr;
  current_proprietaire : list pystr;
  current_adresse : pystr;
  is_in_relevant_parcel : bool;
  data : list Row
}.

Definition initial : State :=
  {| current_section := None;
     current_plan := None;
     current_proprietaire := [];
     current_adresse := [];
     is_in_relevant_parcel := false;
     data := [] |}.

(** A Python value used as a condition: a list or a string is true when it
    is not empty. *)
Definition truthy (A : Type) (l : list A) : bool :=
  match l with [] => false | _ :: _ => true end.

Variable sections_filtre plans_filtre : list pystr.

Definition header_match (line : pystr) : option Match := re_search header_re line.
Definition lot_match (line : pystr) : option Match := re_search lot_re line.
Definition tantiemes_match (line : pystr) : option Match :=
  re_search tantiemes_re line.

(** The owner-name test of line 84. *)
Definition is_owner_name (line : pystr) : bool :=
  is_some (re_match owner_re (strip line))
  && negb (is_some (lot_match line))
  && negb (is_some (tantiemes_match line))
  && negb (contains (py "LOT") (upper line)).

(** The body of the loop over the lines (lines 45-100). *)
Definition process_line (st : State) (line : pystr) : State :=
  match header_match line with
  | Some hm =>
      let section := upper (strip (group hm 1)) in
      let plan := strip (group hm 2) in
      {| current_section := Some section;
         current_plan := Some plan;
         current_proprietaire := [];
         current_adresse := [];
         is_in_relevant_parcel :=
           py_in section sections_filtre && py_in plan plans_filtre;
         data := data st |}
  | None =>
      if is_in_relevant_parcel st then
        match lot_match line, tantiemes_match line with
        | Some lm, Some tm =>
            let lot_num := group lm 1 in
            let tantiemes := replace_space (group tm 1) in
            if truthy (current_proprietaire st) then
              {| current_section := current_section st;
                 current_plan := current_plan st;
                 current_proprietaire := current_proprietaire st;
                 current_adresse := current_adresse st;
                 is_in_relevant_parcel := is_in_relevant_parcel st;
                 data := data st ++
                   [{| col_Section := current_section st;
                       col_Plan := current_plan st;
                       col_N_Lot := lot_num;
                       col_Tantiemes := tantiemes;
                       col_Proprietaires :=
                         join [LF] (current_proprietaire st);
                       col_Adresse_Postale_Proprietaire :=
                         strip (current_adresse st) |}] |}
            else st
        | _, _ =>
            if is_owner_name line then
              let fresh := truthy (current_adresse st) in
              {| current_section := current_section st;
                 current_plan := current_plan st;
                 current_proprietaire :=
                   (if fresh then [] else current_proprietaire st)
                   ++ [strip line];
                 current_adresse :=
                   if fresh then [] else current_adresse st;
                 is_in_relevant_parcel := is_in_relevant_parcel st;
                 data := data st |}
            else if truthy (current_proprietaire st)
                    && negb (truthy (current_adresse st)) then
              if is_some (re_search digit_re line)
                 && is_some (re_search alpha_re line) then
                {| current_section := current_section st;
                   current_plan := current_plan st;
                   current_proprietaire := current_proprietaire st;
                   current_adresse :=
                     current_adresse st ++ strip line ++ [LF];
                   is_in_relevant_parcel := is_in_relevant_parcel st;
                   data := data st |}
              else st
            else st
        end
      else st
  end.

(** The loop over the lines of one page. *)
Definition process_lines (st : State) (lines : list pystr) : State :=
  fold_left process_line lines st.

(** The lines of a page: none when [extract_text()] gives [None] or the
    empty string. *)
Definition page_lines (text : option pystr) : list pystr :=
  match text with
  | None => []
  | Some [] => []
  | Some t => split_lines t
  end.

(** The loop over the pages; the state runs on from page to page. *)
Definition process_pages (st : State) (pages : list (option pystr)) : State :=
  fold_left (fun s text => process_lines s (page_lines text)) pages st.

(** [parse_pdf(file_stream, sections_filtre, plans_filtre)], on the text
    of the pages of the document. *)
Definition parse_pdf (pages : list (option pystr)) : list Row :=
  data (process_pages initial pages).

(** The extractor on a sequence of lines. *)
Definition extract (lines : list pystr) : list Row :=
  data (process_lines initial lines).

(** A line that takes the header branch of line 48. *)
Definition header_line (line : pystr) : Prop := header_match line <> None.

(** A line that reaches the test of line 66 and passes it: no header on
    it, a lot number and a fraction. *)
Definition lot_share_line (line : pystr) : Prop :=
  header_match line = None /\ lot_match line <> None
  /\ tantiemes_match line <> None.

(** A line that reaches the test of line 84 and passes it. *)
Definition owner_name_line (line : pystr) : Prop :=
  header_match line = None /\ is_owner_name line = true.

(** A line that reaches the test of line 99 and passes it, when the
    owner block is not empty and the address is. *)
Definition address_line (line : pystr) : Prop :=
  header_match line = None
  /\ (lot_match line = None \/ tantiemes_match line = None)
  /\ is_owner_name line = false
  /\ re_search digit_re line <> None
  /\ re_search alpha_re line <> None.

(** The record that a lot and share line appends. *)
Definition row_of (st : State) (lm tm : Match) : Row :=
  {| col_Section := current_section st;
     col_Plan := current_plan st;
     col_N_Lot := group lm 1;
     col_Tantiemes := replace_space (group tm 1);
     col_Proprietaires := join [LF] (current_proprietaire st);
     col_Adresse_Postale_Proprietaire := strip (current_adresse st) |}.

(** What a header line sets the section and the plan to. *)
Definition header_section (hm : Match) : pystr := upper (strip (group hm 1)).
Definition header_plan (hm : Match) : pystr := strip (group hm 2).

(** A record whose section and plan are both in the filters. *)
Definition within_filters (r : Row) : Prop :=
  exists s p, col_Section r = Some s /\ col_Plan r = Some p
              /\ In s sections_filtre /\ In p plans_filtre.

(** A record whose section and plan were read from a header line of
    [lines]. *)
Definition from_header (lines : list pystr) (r : Row) : Prop :=
  exists h hm, In h lines /\ header_match h = Some hm
               /\ col_Section r = Some (header_section hm)
               /\ col_Plan r = Some (header_plan hm).

(** A header line whose parcel passes the filters. *)
Definition relevant_header (line : pystr) : Prop :=
  exists hm, header_match line = Some hm
             /\ py_in (header_section hm) sections_filtre
                && py_in (header_plan hm) plans_filtre = true.

End Parser.

(** ** The classes of lines, as tests *)

Section Classes.

Context {U : UnicodeDB}.

(** The test of [lot_share_line]. *)
Definition is_lot_share (line : pystr) : bool :=
  negb (is_some (header_match line))
  && is_some (lot_match line) && is_some (tantiemes_match line).

(** The test of [address_line]. *)
Definition is_address (line : pystr) : bool :=
  negb (is_some (header_match line))
  && negb (is_some (lot_match line) && is_some (tantiemes_match line))
  && negb (is_owner_name line)
  && is_some (re_search digit_re line) && is_some (re_search alpha_re line).

(** The names of an owner block: trimmed owner-name lines of [lines]. *)
Definition names_from (lines : list pystr) (names : list pystr) : Prop :=
  Forall (fun n => exists l, In l lines /\ is_owner_name l = true
                             /\ n = strip l) names.

(** An address: nothing, or one trimmed address line of [lines]. *)
Definition address_from (lines : list pystr) (adresse : pystr) : Prop :=
  adresse = [] \/ exists y, In y lines /\ is_address y = true
                            /\ adresse = strip y.

(** A string of decimal digits, one at least. *)
Definition digits (s : pystr) : Prop := s <> [] /\ forallb is_decimal s = true.

End Classes.

(** ** The filters of the caller (lines 217-222) *)

(** [s.split(sep)] for a separator of one character. *)
Fixpoint split_on_aux (sep : char) (cur : pystr) (s : pystr) : list pystr :=
  match s with
  | [] => [rev cur]
  | c :: s' =>
      if char_eqb c sep then rev cur :: split_on_aux sep [] s'
      else split_on_aux sep (c :: cur) s'
  end.

Definition split_on (sep : char) (s : pystr) : list pystr := split_on_aux sep [] s.

(** The comma, [',']. *)
Definition COMMA : char := 44.

Section Filters.

Context {U : UnicodeDB}.

(** [[s.strip().upper() for s in sections_input.split(',')]] *)
Definition clean_sections (sections_input : pystr) : list pystr :=
  map (fun s => upper (strip s)) (split_on COMMA sections_input).

(** [[p.strip() for p in plans_input.split(',')]] *)
Definition clean_plans (plans_input : pystr) : list pystr :=
  map strip (split_on COMMA plans_input).

(** The filters that the analysis runs with: none when an input is empty
    (the error message of line 218). *)
Definition filtres (sections_input plans_input : pystr)
  : option (list pystr * list pystr) :=
  if negb (truthy sections_input) || negb (truthy plans_input) then None
  else Some (clean_sections sections_input, clean_plans plans_input).

End Filters.

(** ** The HTML adapter, [parse_html] *)

(** A value, or the [AttributeError] of an attribute read on [None]. *)
Inductive result (A : Type) : Type :=
| Ok (a : A)
| AttributeError.

Arguments AttributeError {A}.

Definition bind (A B : Type) (r : result A) (k : A -> result B) : result B :=
  match r with
  | Ok a => k a
  | AttributeError => AttributeError
  end.

Notation "x <- r ;; k" := (bind r (fun x => k))
  (at level 61, r at next level, right associativity).

(** [tag.text] of what [select_one] found: an error when it found
    nothing. *)
Definition text (tag : option pystr) : result pystr :=
  match tag with
  | Some t => Ok t
  | None => AttributeError
  end.

(** What the selectors of [parse_html] find in one [div.parcelle]: the
    text of the first [h2], of the first [.nom] and of the first
    [.adresse], when there is one, and for each [tr] the texts of its
    [td]. *)
Record Parcelle := {
  sel_h2 : option pystr;
  sel_nom : option pystr;
  sel_adresse : option pystr;
  sel_tr : list (list pystr)
}.

(** What [parse_html] gives back: the rows, and whether the warning of
    line 147 was shown. *)
Record Html := { warned : bool; html_data : list Row }.

Section Adapter.

Context {U : UnicodeDB}.
Variable sections_filtre plans_filtre : list pystr.

(** [r"Section\s*(\w+)\s*Plan\s*(\d+)"] with [re.IGNORECASE] *)
Definition html_header_re : list op :=
  lit_ignore "Section" ++ [spaces0]
  ++ [Mark 0; MaxRepeat 1 [Category CategoryWord]; Mark 1]
  ++ [spaces0] ++ lit_ignore "Plan" ++ [spaces0]
  ++ [Mark 2; MaxRepeat 1 [Category CategoryDigit]; Mark 3].

(** [r"Lot\s*(\d+)"], case sensitive *)
Definition html_lot_re : list op :=
  lit "Lot" ++ [spaces0]
  ++ [Mark 0; MaxRepeat 1 [Category CategoryDigit]; Mark 1].

(** The loop over the rows of a parcel (lines 162-176). *)
Fixpoint html_lots (section plan nom adresse : pystr)
         (lignes_lots : list (list pystr)) (data : list Row)
  : result (list Row) :=
  match lignes_lots with
  | [] => Ok data
  | colonnes :: rest =>
      match colonnes with
      | [lot_text; tantiemes] =>
          match re_search html_lot_re lot_text with
          | None => AttributeError
          | Some m =>
              html_lots section plan nom adresse rest
                (data ++
                 [{| col_Section := Some section;
                     col_Plan := Some plan;
                     col_N_Lot := group m 1;
                     col_Tantiemes := strip tantiemes;
                     col_Proprietaires := nom;
                     col_Adresse_Postale_Proprietaire := adresse |}])
          end
      | _ => html_lots section plan nom adresse rest data
      end
  end.

(** The loop over the parcels (lines 150-176). *)
Fixpoint html_parcelles (parcelles : list Parcelle) (data : list Row)
  : result (list Row) :=
  match parcelles with
  | [] => Ok data
  | parcelle :: rest =>
      header <- text (sel_h2 parcelle) ;;
      match re_search html_header_re header with
      | Some hm =>
          let section := upper (group hm 1) in
          let plan := group hm 2 in
          if py_in section sections_filtre && py_in plan plans_filtre then
            nom <- text (sel_nom parcelle) ;;
            adresse <- text (sel_adresse parcelle) ;;
            data' <- html_lots section plan nom adresse (sel_tr parcelle) data ;;
            html_parcelles rest data'
          else html_parcelles rest data
      | None => html_parcelles rest data
      end
  end.

(** [parse_html(file_stream, sections_filtre, plans_filtre)], on what
    [soup.select('div.parcelle')] finds. *)
Definition parse_html (parcelles : list Parcelle) : result Html :=
  match parcelles with
  | [] => Ok {| warned := true; html_data := [] |}
  | _ :: _ =>
      data <- html_parcelles parcelles [] ;;
      Ok {| warned := false; html_data := data |}
  end.

(** A parcel that the loop reads in full: its header matches and passes
    the filters. *)
Definition html_relevant (parcelle : Parcelle) : bool :=
  match sel_h2 parcelle with
  | None => false
  | Some header =>
      match re_search html_header_re header with
      | Some hm =>
          py_in (upper (group hm 1)) sections_filtre
          && py_in (group hm 2) plans_filtre
      | None => false
      end
  end.

(** The rows of two cells. *)
Definition two_cells (colonnes : list pystr) : bool :=
  match colonnes with
  | [_; _] => true
  | _ => false
  end.

End Adapter.

(** ** Sample documents *)

(** The survey of the end-to-end example. *)
Definition sample_lines : list pystr :=
  [py "Section : AC Plan : 124"; py "DUPONT JEAN";
   py "1 RUE DE LA PAIX 75001 PARIS"; py "Lot 1  123 / 10000"].

Definition sample_row : Row :=
  {| col_Section := Some (py "AC");
     col_Plan := Some (py "124");
     col_N_Lot := py "1";
     col_Tantiemes := py "123/10000";
     col_Proprietaires := py "DUPONT JEAN";
     col_Adresse_Postale_Proprietaire := py "1 RUE DE LA PAIX 75001 PARIS" |}.

Definition header_AC_124 : pystr := py "Section : AC Plan : 124".
Definition lot_line : pystr := py "Lot 1  123 / 10000".

(** The state inside parcel AC 124 with the given owner block and address. *)
Definition in_parcel (owners : list pystr) (adresse : pystr) : State :=
  {| current_section := Some (py "AC");
     current_plan := Some (py "124");
     current_proprietaire := owners;
     current_adresse := adresse;
     is_in_relevant_parcel := true;
     data := [] |}.

(** A horizontal tab, a no-break space (U+00A0) and a capital E with
    acute accent (U+00C9). *)
Definition TAB : char := 9.
Definition NBSP : char := 160.
Definition E_ACUTE : char := 201.

(** A fraction with spaces around it, on a lot line. *)
Definition spaced_lines : list pystr :=
  [py "Section : AC Plan : 124"; py "DUPONT JEAN";
   py "Lot 7" ++ py " 123 / 10000 "].

(** A fraction with tabs around the slash, on a lot line. *)
Definition tab_fraction : pystr :=
  py "123" ++ [TAB] ++ py "/" ++ [TAB] ++ py "10000".

Definition tab_lines : list pystr :=
  [py "Section : AC Plan : 124"; py "DUPONT JEAN"; py "Lot 1 " ++ tab_fraction].

(** A name with a no-break space, and one with an accented capital. *)
Definition nbsp_name : pystr := py "DUPONT" ++ [NBSP] ++ py "JEAN".
Definition accent_name : pystr := [E_ACUTE] ++ py "MILE DUPONT".

(** The parcel of the docstring of [parse_html], one of another section
    and the same with nothing but its header. *)
Definition sample_parcelle : Parcelle :=
  {| sel_h2 := Some (py "Section AC Plan 124");
     sel_nom := Some (py "DUPONT Jean");
     sel_adresse := Some (py "1 RUE DE LA PAIX 75001 PARIS");
     sel_tr := [[py "Lot 1"; py "123 / 10000"]; [py "Lot"]] |}.

Definition other_parcelle : Parcelle :=
  {| sel_h2 := Some (py "Section ZZ Plan 9");
     sel_nom := Some (py "MARTIN Paul");
     sel_adresse := Some (py "2 RUE DU PORT 13002 MARSEILLE");
     sel_tr := [[py "Lot 3"; py "1 / 2"]] |}.

Definition bare_parcelle : Parcelle :=
  {| sel_h2 := Some (py "Section ZZ Plan 9");
     sel_nom := None;
     sel_adresse := None;
     sel_tr := [[py "no lot"; py "1 / 2"]] |}.

Definition other_header : pystr := py "Section : ZZ Plan : 9".

(** * Properties *)

Unset Implicit Arguments.

Section Properties.

Context {U : UnicodeDB}.
Variable sections_filtre plans_filtre : list pystr.

(** ** Strings *)

Lemma char_eqb_eq (a b : char) : char_eqb a b = true <-> a = b.
Proof. apply N.eqb_eq. Qed.

Lemma pystr_eqb_eq (a b : pystr) : pystr_eqb a b = true <-> a = b.
Proof.
  revert b; induction a as [|x a IH]; intros [|y b]; simpl;
    try (split; congruence).
  rewrite andb_true_iff, char_eqb_eq, IH. split.
  - intros [-> ->]; reflexivity.
  - intros E; injection E; auto.
Qed.

Lemma py_in_In (x : pystr) (xs : list pystr) : py_in x xs = true <-> In x xs.
Proof.
  unfold py_in. rewrite existsb_exists. split.
  - intros (y & Hy & E). apply pystr_eqb_eq in E. subst; assumption.
  - intros H. exists x. split; [assumption | apply pystr_eqb_eq; reflexivity].
Qed.

Lemma lstrip_idempotent (s : pystr) : lstrip (lstrip s) = lstrip s.
Proof.
  induction s as [|c s IH]; simpl; [reflexivity|].
  destruct (is_space c) eqn:E; [exact IH|]. simpl. rewrite E. reflexivity.
Qed.

Lemma lstrip_head (s : pystr) (c : char) (t : pystr) :
  lstrip s = c :: t -> is_space c = false.
Proof.
  induction s as [|x s IH]; simpl; [discriminate|].
  destruct (is_space x) eqn:E; [exact IH|]. intros [= <- _]. exact E.
Qed.

Lemma lstrip_snoc (s : pystr) (c : char) :
  is_space c = false -> lstrip (s ++ [c]) = lstrip s ++ [c].
Proof.
  intros Hc. induction s as [|x s IH]; simpl.
  - rewrite Hc. reflexivity.
  - destruct (is_space x); [exact IH | reflexivity].
Qed.

Lemma rstrip_cons (c : char) (s : pystr) :
  is_space c = false -> rstrip (c :: s) = c :: rstrip s.
Proof.
  intros Hc. unfold rstrip. simpl rev.
  rewrite (lstrip_snoc _ c Hc), rev_app_distr. reflexivity.
Qed.

Lemma rstrip_idempotent (s : pystr) : rstrip (rstrip s) = rstrip s.
Proof. unfold rstrip. rewrite rev_involutive, lstrip_idempotent. reflexivity. Qed.

Lemma rstrip_line_feed (s : pystr) : rstrip (s ++ [LF]) = rstrip s.
Proof. unfold rstrip. rewrite rev_app_distr. reflexivity. Qed.

(** A trimmed string is empty or starts with a character that is not
    white space. *)
Lemma strip_cases (s : pystr) :
  strip s = [] \/ exists c t, strip s = c :: t /\ is_space c = false.
Proof.
  unfold strip. destruct (lstrip s) as [|c u] eqn:E; [left; reflexivity|].
  right. assert (Hc := lstrip_head s c u E).
  rewrite (rstrip_cons c u Hc). eauto.
Qed.

(** The address of a record: one trimmed line and its line feed, trimmed
    again, is the trimmed line. *)
Lemma strip_address (s : pystr) : strip (strip s ++ [LF]) = strip s.
Proof.
  destruct (strip_cases s) as [E | (c & t & E & Hc)].
  - rewrite E. reflexivity.
  - unfold strip at 1. rewrite E. simpl lstrip. rewrite Hc.
    change (c :: t ++ [LF]) with ((c :: t) ++ [LF]).
    rewrite rstrip_line_feed, <- E. unfold strip. apply rstrip_idempotent.
Qed.

(** ** The steps of the loop body, branch by branch *)

(** Closes a goal that lists components the step has not touched. *)
Ltac unchanged := simpl; repeat split; auto.

Lemma step_header (st : State) (line : pystr) (hm : Match) :
  header_match line = Some hm ->
  process_line sections_filtre plans_filtre st line =
  {| current_section := Some (header_section hm);
     current_plan := Some (header_plan hm);
     current_proprietaire := [];
     current_adresse := [];
     is_in_relevant_parcel :=
       py_in (header_section hm) sections_filtre
       && py_in (header_plan hm) plans_filtre;
     data := data st |}.
Proof. intros H. unfold process_line. rewrite H. reflexivity. Qed.

Lemma step_outside (st : State) (line : pystr) :
  header_match line = None -> is_in_relevant_parcel st = false ->
  process_line sections_filtre plans_filtre st line = st.
Proof. intros H R. unfold process_line. rewrite H, R. reflexivity. Qed.

Lemma step_lot (st : State) (line : pystr) (lm tm : Match) :
  header_match line = None -> is_in_relevant_parcel st = true ->
  lot_match line = Some lm -> tantiemes_match line = Some tm ->
  process_line sections_filtre plans_filtre st line =
  if truthy (current_proprietaire st)
  then {| current_section := current_section st;
          current_plan := current_plan st;
          current_proprietaire := current_proprietaire st;
          current_adresse := current_adresse st;
          is_in_relevant_parcel := is_in_relevant_parcel st;
          data := data st ++ [row_of st lm tm] |}
  else st.
Proof.
  intros H R L T. unfold process_line. rewrite H, R, L, T. reflexivity.
Qed.

Lemma owner_name_no_lot (line : pystr) :
  is_owner_name line = true ->
  lot_match line = None /\ tantiemes_match line = None.
Proof.
  unfold is_owner_name. rewrite !andb_true_iff, !negb_true_iff.
  intros [[[_ L] T] _].
  destruct (lot_match line); [discriminate|].
  destruct (tantiemes_match line); [discriminate|]. auto.
Qed.

Lemma step_owner (st : State) (line : pystr) :
  owner_name_line line -> is_in_relevant_parcel st = true ->
  process_line sections_filtre plans_filtre st line =
  {| current_section := current_section st;
     current_plan := current_plan st;
     current_proprietaire :=
       (if truthy (current_adresse st) then [] else current_proprietaire st)
       ++ [strip line];
     current_adresse :=
       if truthy (current_adresse st) then [] else current_adresse st;
     is_in_relevant_parcel := is_in_relevant_parcel st;
     data := data st |}.
Proof.
  intros [H O] R. destruct (owner_name_no_lot _ O) as [L T].
  unfold process_line. rewrite H, R, L, O. reflexivity.
Qed.

Lemma step_address (st : State) (line : pystr) :
  address_line line -> is_in_relevant_parcel st = true ->
  current_proprietaire st <> [] -> current_adresse st = [] ->
  process_line sections_filtre plans_filtre st line =
  {| current_section := current_section st;
     current_plan := current_plan st;
     current_proprietaire := current_proprietaire st;
     current_adresse := strip line ++ [LF];
     is_in_relevant_parcel := is_in_relevant_parcel st;
     data := data st |}.
Proof.
  intros (H & LT & O & D & A) R Ho Ha.
  unfold process_line. rewrite H, R, O, Ha.
  destruct (current_proprietaire st) as [|o os] eqn:Eo; [congruence|].
  destruct (re_search digit_re line); [|congruence].
  destruct (re_search alpha_re line); [|congruence].
  destruct LT as [-> | ->]; [reflexivity|].
  destruct (lot_match line); reflexivity.
Qed.

Lemma lot_share_matches (line : pystr) :
  lot_share_line line ->
  exists lm tm, lot_match line = Some lm /\ tantiemes_match line = Some tm.
Proof.
  intros (_ & L & T).
  destruct (lot_match line) as [lm|]; [|congruence].
  destruct (tantiemes_match line) as [tm|]; [|congruence].
  eauto.
Qed.

Lemma process_lines_app (st : State) (l1 l2 : list pystr) :
  process_lines sections_filtre plans_filtre st (l1 ++ l2) =
  process_lines sections_filtre plans_filtre
    (process_lines sections_filtre plans_filtre st l1) l2.
Proof. apply fold_left_app. Qed.

Lemma process_lines_snoc (st : State) (ls : list pystr) (l : pystr) :
  process_lines sections_filtre plans_filtre st (ls ++ [l]) =
  process_line sections_filtre plans_filtre
    (process_lines sections_filtre plans_filtre st ls) l.
Proof. rewrite process_lines_app. reflexivity. Qed.

(** A line without header leaves the parcel alone and appends at most the
    record of the current owner block. *)
Lemma step_no_header (st : State) (line : pystr) :
  header_match line = None ->
  let st' := process_line sections_filtre plans_filtre st line in
  current_section st' = current_section st
  /\ current_plan st' = current_plan st
  /\ is_in_relevant_parcel st' = is_in_relevant_parcel st
  /\ (data st' = data st
      \/ exists lm tm,
           lot_match line = Some lm /\ tantiemes_match line = Some tm
           /\ is_in_relevant_parcel st = true
           /\ current_proprietaire st <> []
           /\ data st' = data st ++ [row_of st lm tm]).
Proof.
  intros H. unfold process_line. rewrite H.
  destruct (is_in_relevant_parcel st) eqn:R; [|unchanged].
  destruct (lot_match line) as [lm|] eqn:L;
    destruct (tantiemes_match line) as [tm|] eqn:T.
  1: { destruct (current_proprietaire st) eqn:O; [unchanged|].
       simpl. repeat split; auto. right. exists lm, tm.
       repeat split; auto; [discriminate|].
       unfold row_of. rewrite O. reflexivity. }
  all: destruct (is_owner_name line); [unchanged|];
    destruct (truthy (current_proprietaire st)
              && negb (truthy (current_adresse st))); [|unchanged];
    destruct (is_some (re_search digit_re line)
              && is_some (re_search alpha_re line)); unchanged.
Qed.

(** Induction over the lines read so far. *)
Lemma process_lines_invariant (P : list pystr -> State -> Prop) (st : State) :
  P [] st ->
  (forall ls s l,
      P ls s -> P (ls ++ [l]) (process_line sections_filtre plans_filtre s l)) ->
  forall lines, P lines (process_lines sections_filtre plans_filtre st lines).
Proof.
  intros H0 Hstep lines. induction lines as [|l ls IH] using rev_ind.
  - exact H0.
  - rewrite process_lines_snoc. apply Hstep, IH.
Qed.

(** The pages of a document are read as one sequence of lines. *)
Lemma process_pages_lines (st : State) (pages : list (option pystr)) :
  process_pages sections_filtre plans_filtre st pages =
  process_lines sections_filtre plans_filtre st (flat_map page_lines pages).
Proof.
  revert st. induction pages as [|p ps IH]; intros st; [reflexivity|].
  simpl. rewrite process_lines_app. apply IH.
Qed.

Lemma parse_pdf_extract (pages : list (option pystr)) :
  parse_pdf sections_filtre plans_filtre pages =
  extract sections_filtre plans_filtre (flat_map page_lines pages).
Proof. unfold parse_pdf, extract. rewrite process_pages_lines. reflexivity. Qed.

(** ** No record outside the filters *)

Lemma filters_invariant (lines : list pystr) :
  let st := process_lines sections_filtre plans_filtre initial lines in
  (is_in_relevant_parcel st = true ->
   exists s p, current_section st = Some s /\ current_plan st = Some p
               /\ In s sections_filtre /\ In p plans_filtre)
  /\ Forall (within_filters sections_filtre plans_filtre) (data st).
Proof.
  apply (process_lines_invariant
    (fun _ st =>
       (is_in_relevant_parcel st = true ->
        exists s p, current_section st = Some s /\ current_plan st = Some p
                    /\ In s sections_filtre /\ In p plans_filtre)
       /\ Forall (within_filters sections_filtre plans_filtre) (data st))).
  - split; [discriminate | constructor].
  - intros _ s l [Hpar Hdata].
    destruct (header_match l) as [hm|] eqn:H.
    + rewrite (step_header s l hm H). simpl. split; [|assumption].
      rewrite andb_true_iff, !py_in_In. intros [Hs Hp]. eauto 6.
    + destruct (step_no_header s l H) as (Es & Ep & Er & Hd).
      rewrite Es, Ep, Er. split; [assumption|].
      destruct Hd as [-> | (lm & tm & _ & _ & R & _ & ->)]; [assumption|].
      apply Forall_app. split; [assumption|].
      constructor; [|constructor].
      destruct (Hpar R) as (sec & pl & E1 & E2 & I1 & I2).
      exists sec, pl. simpl. auto.
Qed.

(** C1. Every record that [extract] emits, for every sequence of lines and
    every pair of filters, has its section in the section filter and its
    plan in the plan filter; the same holds for [parse_pdf] on the pages of
    a document.  So no record is emitted for a parcel outside the
    filters. *)
Theorem C1_records_within_filters :
  (forall lines : list pystr,
      Forall (within_filters sections_filtre plans_filtre)
             (extract sections_filtre plans_filtre lines))
  /\ (forall pages : list (option pystr),
        Forall (within_filters sections_filtre plans_filtre)
               (parse_pdf sections_filtre plans_filtre pages)).
Proof.
  split.
  - intros lines. apply filters_invariant.
  - intros pages. rewrite parse_pdf_extract. apply filters_invariant.
Qed.

(** ** Lot lines *)

(** C2. In a relevant parcel whose owner block is empty, a line that
    matches the lot and share rule emits no record and changes nothing:
    the state after the line is the state before it, and so is the number
    of records. *)
Theorem C2_lot_line_without_owner_dropped (st : State) (line : pystr) :
  is_in_relevant_parcel st = true ->
  current_proprietaire st = [] ->
  lot_share_line line ->
  process_line sections_filtre plans_filtre st line = st
  /\ List.length (data (process_line sections_filtre plans_filtre st line))
     = List.length (data st).
Proof.
  intros R O Hl. destruct (lot_share_matches line Hl) as (lm & tm & L & T).
  destruct Hl as (H & _).
  assert (E : process_line sections_filtre plans_filtre st line = st).
  { rewrite (step_lot st line lm tm H R L T), O. reflexivity. }
  rewrite E. split; reflexivity.
Qed.

(** C7. A line that matches the lot and share rule leaves the owner
    block and the address as they were, whether it emits a record or not
    (and the section, the plan and the relevance too); the records emitted
    before stay, followed by at most one new record. *)
Theorem C7_lot_line_keeps_owner_state (st : State) (line : pystr) :
  lot_share_line line ->
  let st' := process_line sections_filtre plans_filtre st line in
  current_proprietaire st' = current_proprietaire st
  /\ current_adresse st' = current_adresse st
  /\ current_section st' = current_section st
  /\ current_plan st' = current_plan st
  /\ is_in_relevant_parcel st' = is_in_relevant_parcel st
  /\ exists new, data st' = data st ++ new /\ List.length new <= 1.
Proof.
  intros Hl. destruct (lot_share_matches line Hl) as (lm & tm & L & T).
  destruct Hl as (H & _).
  destruct (is_in_relevant_parcel st) eqn:R.
  - rewrite (step_lot st line lm tm H R L T).
    destruct (truthy (current_proprietaire st)); simpl.
    + repeat split; auto. exists [row_of st lm tm]. split; [reflexivity|].
      simpl. lia.
    + repeat split; auto. exists []. rewrite app_nil_r. split; [reflexivity|].
      simpl. lia.
  - rewrite (step_outside st line H R).
    repeat split; auto. exists []. rewrite app_nil_r. split; [reflexivity|].
    simpl. lia.
Qed.

(** ** Headers *)

Lemma from_header_more (ls : list pystr) (l : pystr) (r : Row) :
  from_header ls r -> from_header (ls ++ [l]) r.
Proof.
  intros (h & hm & I & E). exists h, hm. split; [|assumption].
  apply in_or_app. left. assumption.
Qed.

Lemma header_invariant (lines : list pystr) :
  let st := process_lines sections_filtre plans_filtre initial lines in
  (is_in_relevant_parcel st = true ->
   exists h hm, In h lines /\ header_match h = Some hm
                /\ current_section st = Some (header_section hm)
                /\ current_plan st = Some (header_plan hm))
  /\ Forall (from_header lines) (data st).
Proof.
  apply (process_lines_invariant
    (fun ls st =>
       (is_in_relevant_parcel st = true ->
        exists h hm, In h ls /\ header_match h = Some hm
                     /\ current_section st = Some (header_section hm)
                     /\ current_plan st = Some (header_plan hm))
       /\ Forall (from_header ls) (data st))).
  - split; [discriminate | constructor].
  - intros ls s l [Hpar Hdata].
    assert (Hold : Forall (from_header (ls ++ [l])) (data s)).
    { eapply Forall_impl; [|exact Hdata]. intros r. apply from_header_more. }
    destruct (header_match l) as [hm|] eqn:H.
    + rewrite (step_header s l hm H). simpl. split; [|assumption].
      intros _. exists l, hm. repeat split; auto.
      apply in_or_app. right. left. reflexivity.
    + destruct (step_no_header s l H) as (Es & Ep & Er & Hd).
      rewrite Es, Ep, Er. split.
      * intros R. destruct (Hpar R) as (h & hm & I & E).
        exists h, hm. split; [|assumption]. apply in_or_app. left. assumption.
      * destruct Hd as [-> | (lm & tm & _ & _ & R & _ & ->)]; [assumption|].
        apply Forall_app. split; [assumption|].
        constructor; [|constructor].
        destruct (Hpar R) as (h & hm & I & E1 & E2 & E3).
        exists h, hm. simpl. repeat split; auto.
        apply in_or_app. left. assumption.
Qed.

(** C9. Before the first header line nothing happens: lines without
    header leave the initial state as it is (no record, no owner, no
    address).  The records that a line emits take their section and their
    plan, neither of them null, from a header line among the lines before
    it; so does every record of the result. *)
Theorem C9_nothing_before_first_header :
  (forall pre : list pystr,
      Forall (fun l => header_match l = None) pre ->
      process_lines sections_filtre plans_filtre initial pre = initial)
  /\ (forall (pre : list pystr) (l : pystr),
        exists new,
          data (process_lines sections_filtre plans_filtre initial (pre ++ [l]))
          = data (process_lines sections_filtre plans_filtre initial pre) ++ new
          /\ Forall (from_header pre) new)
  /\ (forall lines : list pystr,
        Forall (from_header lines) (extract sections_filtre plans_filtre lines)).
Proof.
  split; [|split].
  - intros pre Hpre. induction pre as [|l ls IH] using rev_ind; [reflexivity|].
    apply Forall_app in Hpre. destruct Hpre as [Hls Hl].
    rewrite process_lines_snoc, (IH Hls).
    apply step_outside; [|reflexivity]. inversion Hl; assumption.
  - intros pre l. rewrite process_lines_snoc.
    destruct (header_invariant pre) as [Hpar _].
    set (s := process_lines sections_filtre plans_filtre initial pre) in *.
    destruct (header_match l) as [hm|] eqn:H.
    + rewrite (step_header s l hm H). simpl. exists [].
      rewrite app_nil_r. split; [reflexivity | constructor].
    + destruct (step_no_header s l H) as (_ & _ & _ & Hd).
      destruct Hd as [-> | (lm & tm & _ & _ & R & _ & ->)].
      * exists []. rewrite app_nil_r. split; [reflexivity | constructor].
      * exists [row_of s lm tm]. split; [reflexivity|].
        constructor; [|constructor].
        destruct (Hpar R) as (h & hm & I & E1 & E2 & E3).
        exists h, hm. simpl. repeat split; auto.
  - intros lines. apply header_invariant.
Qed.

(** C3. A header line always leaves the owner block empty and the address
    the empty string, whatever the state before it.  So after an owner A
    and an address X (or any two lines [a] and [x]), a header of a relevant
    parcel, an owner line B and a lot line emit exactly one record, whose
    owners are B and whose address is empty; with an address line for B
    before the lot line, the address of the record is that line, trimmed. *)
Theorem C3_header_resets_owner_state :
  (forall (st : State) (line : pystr),
      header_line line ->
      current_proprietaire (process_line sections_filtre plans_filtre st line) = []
      /\ current_adresse (process_line sections_filtre plans_filtre st line) = [])
  /\ (forall (st : State) (a x h b l : pystr),
        relevant_header sections_filtre plans_filtre h ->
        owner_name_line b ->
        lot_share_line l ->
        exists r,
          data (process_lines sections_filtre plans_filtre st [a; x; h; b; l])
          = data (process_lines sections_filtre plans_filtre st [a; x]) ++ [r]
          /\ col_Proprietaires r = strip b
          /\ col_Adresse_Postale_Proprietaire r = [])
  /\ (forall (st : State) (a x h b y l : pystr),
        relevant_header sections_filtre plans_filtre h ->
        owner_name_line b ->
        address_line y ->
        lot_share_line l ->
        exists r,
          data (process_lines sections_filtre plans_filtre st [a; x; h; b; y; l])
          = data (process_lines sections_filtre plans_filtre st [a; x]) ++ [r]
          /\ col_Proprietaires r = strip b
          /\ col_Adresse_Postale_Proprietaire r = strip y).
Proof.
  split; [|split].
  - intros st line Hh. unfold header_line in Hh.
    destruct (header_match line) as [hm|] eqn:H; [|congruence].
    rewrite (step_header st line hm H). split; reflexivity.
  - intros st a x h b l (hm & H & Rel) Hb Hl.
    change [a; x; h; b; l] with ([a; x] ++ [h; b; l]).
    rewrite process_lines_app.
    set (s := process_lines sections_filtre plans_filtre st [a; x]).
    destruct (lot_share_matches l Hl) as (lm & tm & L & T).
    destruct Hl as (Hl & _).
    unfold process_lines at 1. simpl fold_left.
    rewrite (step_header s h hm H), Rel.
    rewrite (step_owner _ b) by first [exact Hb | reflexivity]. simpl.
    rewrite (step_lot _ l lm tm) by first [assumption | reflexivity]. simpl.
    eexists. split; [reflexivity|]. split; reflexivity.
  - intros st a x h b y l (hm & H & Rel) Hb Hy Hl.
    change [a; x; h; b; y; l] with ([a; x] ++ [h; b; y; l]).
    rewrite process_lines_app.
    set (s := process_lines sections_filtre plans_filtre st [a; x]).
    destruct (lot_share_matches l Hl) as (lm & tm & L & T).
    destruct Hl as (Hl & _).
    unfold process_lines at 1. simpl fold_left.
    rewrite (step_header s h hm H), Rel.
    rewrite (step_owner _ b) by first [exact Hb | reflexivity]. simpl.
    rewrite (step_address _ y)
      by first [exact Hy | reflexivity | discriminate]. simpl.
    rewrite (step_lot _ l lm tm) by first [assumption | reflexivity]. simpl.
    eexists. split; [reflexivity|]. split; [reflexivity|].
    simpl. apply strip_address.
Qed.

(** C6. In a relevant parcel, two owner-name lines in a row that come
    before any address (the owner block is empty, or an address closed the
    block before) gather in one owner block, and a lot line after them
    emits exactly one record, whose owners are the two trimmed names with a
    line feed between them. *)
Theorem C6_two_names_one_record (st : State) (n1 n2 l : pystr) :
  is_in_relevant_parcel st = true ->
  current_proprietaire st = [] \/ current_adresse st <> [] ->
  owner_name_line n1 ->
  owner_name_line n2 ->
  lot_share_line l ->
  current_proprietaire (process_lines sections_filtre plans_filtre st [n1; n2])
  = [strip n1; strip n2]
  /\ exists r,
      data (process_lines sections_filtre plans_filtre st [n1; n2; l])
      = data st ++ [r]
      /\ col_Proprietaires r = strip n1 ++ [LF] ++ strip n2.
Proof.
  intros R Hfresh H1 H2 Hl.
  destruct (lot_share_matches l Hl) as (lm & tm & L & T).
  destruct Hl as (Hl & _).
  assert (E1 : exists s1,
             process_line sections_filtre plans_filtre st n1 = s1
             /\ current_proprietaire s1 = [strip n1]
             /\ current_adresse s1 = []
             /\ is_in_relevant_parcel s1 = true
             /\ data s1 = data st).
  { eexists. split; [reflexivity|]. rewrite (step_owner st n1 H1 R). simpl.
    destruct (current_adresse st) as [|c ad] eqn:A; simpl.
    - destruct Hfresh as [-> | F]; [|congruence]. repeat split; auto.
    - repeat split; auto. }
  destruct E1 as (s1 & E1 & O1 & A1 & R1 & D1).
  unfold process_lines. simpl fold_left. rewrite E1.
  rewrite (step_owner s1 n2 H2 R1). rewrite A1, O1. simpl.
  split; [reflexivity|].
  rewrite (step_lot _ l lm tm) by first [assumption | reflexivity]. simpl.
  eexists. split; [rewrite D1; reflexivity|]. reflexivity.
Qed.

(** C8. The plan filter is compared as a string: a header whose plan is
    "124" is not relevant when the plan filter holds only "0124", nor a
    header whose plan is "0124" when the filter holds only "124"; no record
    is emitted for that parcel, whatever lines follow up to the next
    header. *)
Theorem C8_plan_compared_as_string (st : State) (h : pystr) (hm : Match) :
  header_match h = Some hm ->
  (header_plan hm = py "124" /\ Forall (eq (py "0124")) plans_filtre)
  \/ (header_plan hm = py "0124" /\ Forall (eq (py "124")) plans_filtre) ->
  is_in_relevant_parcel (process_line sections_filtre plans_filtre st h) = false
  /\ forall rest : list pystr,
      Forall (fun l => header_match l = None) rest ->
      data (process_lines sections_filtre plans_filtre st (h :: rest)) = data st.
Proof.
  intros H Hplan.
  assert (Rel : is_in_relevant_parcel
                  (process_line sections_filtre plans_filtre st h) = false).
  { rewrite (step_header st h hm H). simpl.
    apply andb_false_iff. right.
    destruct (py_in (header_plan hm) plans_filtre) eqn:E; [|reflexivity].
    apply py_in_In in E. exfalso.
    destruct Hplan as [[Ep F] | [Ep F]]; rewrite Ep in E;
      rewrite Forall_forall in F; apply F in E; discriminate E. }
  split; [exact Rel|].
  intros rest Hrest. unfold process_lines. simpl fold_left.
  assert (D : data (process_line sections_filtre plans_filtre st h) = data st).
  { rewrite (step_header st h hm H). reflexivity. }
  rewrite <- D. clear D.
  generalize dependent (process_line sections_filtre plans_filtre st h).
  induction rest as [|l ls IH]; intros s Rel; [reflexivity|].
  inversion Hrest as [|? ? Hl Hls]; subst. simpl.
  rewrite (step_outside s l Hl Rel). apply IH; assumption.
Qed.

(** ** The end-to-end example *)

(** C5. The four sample lines, with the section filter AC and the plan
    filter 124, give exactly one record: section AC, plan 124, lot 1,
    share 123/10000, owner DUPONT JEAN, address 1 RUE DE LA PAIX 75001
    PARIS.  With the plan filter 125 they give no record.  The same holds
    when the lines come as one page of text. *)
Theorem C5_end_to_end_example :
  extract [py "AC"] [py "124"] sample_lines = [sample_row]
  /\ extract [py "AC"] [py "125"] sample_lines = []
  /\ parse_pdf [py "AC"] [py "124"] [Some (join [LF] sample_lines)]
     = [sample_row]
  /\ parse_pdf [py "AC"] [py "125"] [Some (join [LF] sample_lines)] = [].
Proof. repeat split; vm_compute; reflexivity. Qed.

(** ** The matcher *)

Lemma backtrack_some (R : Type) (k : nat -> option R) (lo cnt : nat) (r : R) :
  backtrack k lo cnt = Some r ->
  exists c, lo <= c /\ c <= cnt /\ k c = Some r.
Proof.
  induction cnt as [|n IH]; simpl.
  - destruct (Nat.ltb_spec 0 lo); [discriminate|].
    destruct (k 0) eqn:E; [|discriminate].
    intros [= <-]. exists 0. repeat split; [lia | lia | assumption].
  - destruct (Nat.ltb_spec (S n) lo); [discriminate|].
    destruct (k (S n)) eqn:E.
    + intros [= <-]. exists (S n). repeat split; [lia | lia | assumption].
    + intros Hb. destruct (IH Hb) as (c & ? & ? & ?).
      exists c. repeat split; [lia | lia | assumption].
Qed.

Lemma run_length_prefix (cs : list item) (s : pystr) (c : nat) :
  c <= run_length cs s ->
  exists pre, s = pre ++ skipn c s /\ List.length pre = c
              /\ forallb (in_set cs) pre = true.
Proof.
  revert c. induction s as [|x s IH]; intros c Hc; simpl in Hc.
  - assert (c = 0) by lia. subst. exists []. auto.
  - destruct c as [|c]; [exists []; auto|].
    destruct (in_set cs x) eqn:E; [|lia].
    destruct (IH c ltac:(lia)) as (pre & Es & El & Ea).
    exists (x :: pre). simpl. rewrite E, Ea, El. repeat split; auto.
    f_equal. exact Es.
Qed.

Lemma exec_max_repeat (lo : nat) (cs : list item) (rest : list op)
      (s : pystr) (pos : nat) (mk : marks) (r : nat * marks) :
  exec (MaxRepeat lo cs :: rest) s pos mk = Some r ->
  exists pre post,
    s = pre ++ post /\ lo <= List.length pre
    /\ forallb (in_set cs) pre = true
    /\ exec rest post (pos + List.length pre) mk = Some r.
Proof.
  simpl. intros H. apply backtrack_some in H. destruct H as (c & Hlo & Hc & H).
  destruct (run_length_prefix cs s c Hc) as (pre & Es & El & Ea).
  exists pre, (skipn c s). rewrite El. auto.
Qed.

Lemma exec_one (cs : list item) (rest : list op)
      (s : pystr) (pos : nat) (mk : marks) (r : nat * marks) :
  exec (One cs :: rest) s pos mk = Some r ->
  exists c s', s = c :: s' /\ in_set cs c = true
               /\ exec rest s' (S pos) mk = Some r.
Proof.
  simpl. destruct s as [|c s']; [discriminate|].
  destruct (in_set cs c) eqn:E; [|discriminate]. eauto.
Qed.

Lemma search_at_some (prog : list op) (s : pystr) (pos : nat) (mk : marks) :
  search_at prog s pos = Some mk ->
  exists skipped rest e,
    s = skipped ++ rest
    /\ exec prog rest (pos + List.length skipped) [] = Some (e, mk).
Proof.
  revert pos. induction s as [|x s IH]; intros pos; simpl;
    destruct (exec prog _ pos []) as [[e mk']|] eqn:E.
  - intros [= <-]. exists [], [], e. simpl. rewrite Nat.add_0_r. auto.
  - discriminate.
  - intros [= <-]. exists [], (x :: s), e. simpl. rewrite Nat.add_0_r. auto.
  - intros H. apply IH in H. destruct H as (sk & rest & e & -> & H).
    exists (x :: sk), rest, e. split; [reflexivity|].
    simpl. rewrite Nat.add_succ_r. exact H.
Qed.

Lemma re_search_some (prog : list op) (line : pystr) (m : Match) :
  re_search prog line = Some m ->
  exists skipped rest e,
    line = skipped ++ rest /\ m_string m = line
    /\ exec prog rest (List.length skipped) [] = Some (e, m_marks m).
Proof.
  unfold re_search. destruct (search_at prog line 0) as [mk|] eqn:E;
    [|discriminate].
  intros [= <-]. apply search_at_some in E.
  destruct E as (sk & rest & e & -> & E). exists sk, rest, e. auto.
Qed.

Lemma in_set_category (k : category) (c : char) :
  in_set [Category k] c = in_category k c.
Proof. unfold in_set. simpl. apply orb_false_r. Qed.

Lemma forallb_category (k : category) (s : pystr) :
  forallb (in_set [Category k]) s = forallb (in_category k) s.
Proof.
  induction s as [|c s IH]; cbn [forallb]; [reflexivity|].
  rewrite in_set_category, IH. reflexivity.
Qed.

Lemma substring_middle (a x b : pystr) :
  substring (a ++ x ++ b) (List.length a) (List.length a + List.length x) = x.
Proof.
  unfold substring. rewrite skipn_app, skipn_all, Nat.sub_diag. simpl.
  replace (List.length a + List.length x - List.length a)
    with (List.length x) by lia.
  rewrite firstn_app, firstn_all, Nat.sub_diag. simpl. apply app_nil_r.
Qed.

Lemma substring_at (s a x b : pystr) (e : nat) :
  s = a ++ x ++ b -> e = List.length a + List.length x ->
  substring s (List.length a) e = x.
Proof. intros -> ->. apply substring_middle. Qed.

Lemma nonempty_length (A : Type) (l : list A) : 1 <= List.length l -> l <> [].
Proof. destruct l; simpl; [lia | discriminate]. Qed.

(** ** The share fraction *)

(** What the fraction pattern captures: digits, white space, a slash,
    white space, digits. *)
Lemma tantiemes_match_shape (line : pystr) (tm : Match) :
  tantiemes_match line = Some tm ->
  exists n w1 w2 d,
    group tm 1 = n ++ w1 ++ py "/" ++ w2 ++ d
    /\ n <> [] /\ d <> []
    /\ forallb is_decimal n = true /\ forallb is_decimal d = true
    /\ forallb is_space w1 = true /\ forallb is_space w2 = true.
Proof.
  intros H. apply re_search_some in H.
  destruct H as (sk & rest & e & El & Es & H).
  change tantiemes_re with
    [Mark 0; MaxRepeat 1 [Category CategoryDigit];
     MaxRepeat 0 [Category CategorySpace]; One [Literal 47];
     MaxRepeat 0 [Category CategorySpace];
     MaxRepeat 1 [Category CategoryDigit]; Mark 1] in H.
  change (exec (Mark 0 :: ?p) rest ?q []) with (exec p rest q [(0, q)]) in H.
  apply exec_max_repeat in H. destruct H as (n & r1 & -> & Ln & An & H).
  apply exec_max_repeat in H. destruct H as (w1 & r2 & -> & _ & A1 & H).
  apply exec_one in H. destruct H as (c & r3 & -> & Ec & H).
  apply exec_max_repeat in H. destruct H as (w2 & r4 & -> & _ & A2 & H).
  apply exec_max_repeat in H. destruct H as (d & r5 & -> & Ld & Ad & H).
  simpl in H. injection H as He Hm.
  unfold in_set in Ec. simpl in Ec. rewrite orb_false_r in Ec.
  apply char_eqb_eq in Ec. subst c.
  rewrite forallb_category in An, A1, A2, Ad.
  exists n, w1, w2, d. repeat split; auto using nonempty_length.
  unfold group. rewrite <- Hm. simpl get_mark. rewrite Es, El.
  apply substring_at with (b := r5).
  - rewrite <- !app_assoc. reflexivity.
  - rewrite !length_app. simpl. lia.
Qed.

Lemma replace_space_app (a b : pystr) :
  replace_space (a ++ b) = replace_space a ++ replace_space b.
Proof. apply filter_app. Qed.

Lemma replace_space_digits (n : pystr) :
  forallb is_decimal n = true -> replace_space n = n.
Proof.
  induction n as [|c n IH]; simpl; [reflexivity|].
  rewrite andb_true_iff. intros [Hc Hn].
  destruct (char_eqb c 32) eqn:E.
  - apply char_eqb_eq in E. subst c. discriminate Hc.
  - simpl. rewrite (IH Hn). reflexivity.
Qed.

Lemma replace_space_spaces (w : pystr) :
  Forall (fun c => c = 32%N) w -> replace_space w = [].
Proof.
  induction 1 as [|c w Hc _ IH]; simpl; [reflexivity|].
  subst c. simpl. exact IH.
Qed.

(** The share as line 68 stores it.  On a lot line that emits a record the
    matched fraction token is digits, white space, a slash, white space,
    digits, and line 68 takes its space characters (U+0020) out.  Where the
    white space around the slash is made of spaces only, the stored share
    is the digits, the slash and the digits, "N/D": the fraction
    " 123 / 10000 " is stored as "123/10000". *)
Theorem share_fraction_spaces_removed :
  (forall (st : State) (line : pystr) (lm tm : Match),
      is_in_relevant_parcel st = true ->
      current_proprietaire st <> [] ->
      header_match line = None ->
      lot_match line = Some lm ->
      tantiemes_match line = Some tm ->
      exists r n w1 w2 d,
        data (process_line sections_filtre plans_filtre st line) = data st ++ [r]
        /\ group tm 1 = n ++ w1 ++ py "/" ++ w2 ++ d
        /\ n <> [] /\ d <> []
        /\ forallb is_decimal n = true /\ forallb is_decimal d = true
        /\ forallb is_space w1 = true /\ forallb is_space w2 = true
        /\ col_Tantiemes r = replace_space (group tm 1)
        /\ col_Tantiemes r
           = n ++ replace_space w1 ++ py "/" ++ replace_space w2 ++ d
        /\ (Forall (fun c => c = 32%N) (w1 ++ w2) ->
            col_Tantiemes r = n ++ py "/" ++ d))
  /\ map col_Tantiemes (extract [py "AC"] [py "124"] spaced_lines)
     = [py "123/10000"].
Proof.
  split; [|vm_compute; reflexivity].
  intros st line lm tm R O H L T.
  destruct (tantiemes_match_shape line tm T)
    as (n & w1 & w2 & d & G & Hn & Hd & An & Ad & A1 & A2).
  assert (E : replace_space (group tm 1)
              = n ++ replace_space w1 ++ py "/" ++ replace_space w2 ++ d).
  { rewrite G, !replace_space_app.
    rewrite (replace_space_digits n An), (replace_space_digits d Ad).
    reflexivity. }
  exists (row_of st lm tm), n, w1, w2, d.
  rewrite (step_lot st line lm tm H R L T).
  destruct (current_proprietaire st) eqn:Eo; [congruence|]. simpl.
  repeat split; auto.
  intros Hsp. apply Forall_app in Hsp. destruct Hsp as [S1 S2].
  rewrite E, (replace_space_spaces w1 S1), (replace_space_spaces w2 S2).
  reflexivity.
Qed.

(** ** Owner names *)

Lemma at_end_cases (s : pystr) : at_end s = true -> s = [] \/ s = [LF].
Proof.
  destruct s as [|c [|? ?]]; simpl; auto; [|discriminate].
  intros E. apply char_eqb_eq in E. subst. auto.
Qed.

Lemma owner_set_chars (c : char) :
  in_set owner_set c = true ->
  is_upper_AZ c = true \/ is_space c = true \/ In c (py "/.'-").
Proof.
  unfold in_set, owner_set. simpl.
  rewrite !orb_true_iff, !char_eqb_eq. unfold is_upper_AZ.
  intuition (subst; auto; discriminate).
Qed.

(** A string that the owner pattern matches is made of the characters of
    its set only. *)
Lemma owner_re_chars (s : pystr) (c : char) :
  re_match owner_re s <> None -> In c s -> in_set owner_set c = true.
Proof.
  unfold re_match.
  destruct (exec owner_re s 0 []) as [r|] eqn:E; [|congruence].
  intros _ Hc. unfold owner_re in E.
  change (exec (AtBeginning :: ?p) s 0 []) with (exec p s 0 []) in E.
  apply exec_max_repeat in E. destruct E as (pre & post & -> & _ & Ha & E).
  simpl in E. destruct (at_end post) eqn:Ee; [|discriminate].
  rewrite forallb_forall in Ha.
  apply in_app_or in Hc. destruct Hc as [Hc | Hc]; [auto|].
  destruct (at_end_cases post Ee) as [-> | ->]; [destruct Hc|].
  destruct Hc as [<- | []]. reflexivity.
Qed.

(** A line that is not an owner name leaves the owner block as it was,
    unless it is a header. *)
Lemma step_not_owner (st : State) (line : pystr) :
  header_match line = None -> is_owner_name line = false ->
  current_proprietaire (process_line sections_filtre plans_filtre st line)
  = current_proprietaire st.
Proof.
  intros H O. unfold process_line. rewrite H, O.
  destruct (is_in_relevant_parcel st); [|reflexivity].
  destruct (lot_match line); destruct (tantiemes_match line).
  1: destruct (truthy (current_proprietaire st)); reflexivity.
  all: destruct (truthy (current_proprietaire st)
                 && negb (truthy (current_adresse st))); [|reflexivity];
    destruct (is_some (re_search digit_re line)
              && is_some (re_search alpha_re line)); reflexivity.
Qed.

Lemma ascii_digit_cases (c : char) :
  is_ascii_digit c = true ->
  In c [48; 49; 50; 51; 52; 53; 54; 55; 56; 57]%N.
Proof.
  unfold is_ascii_digit, between. rewrite andb_true_iff, !N.leb_le.
  intros [Hlo Hhi]. simpl.
  destruct (N.eq_dec c 48); [auto|]. destruct (N.eq_dec c 49); [auto|].
  destruct (N.eq_dec c 50); [auto 10|]. destruct (N.eq_dec c 51); [auto 10|].
  destruct (N.eq_dec c 52); [auto 10|]. destruct (N.eq_dec c 53); [auto 10|].
  destruct (N.eq_dec c 54); [auto 10|]. destruct (N.eq_dec c 55); [auto 10|].
  destruct (N.eq_dec c 56); [auto 12|]. destruct (N.eq_dec c 57); [auto 12|].
  lia.
Qed.

(** No character that [\d] matches is in the set of the owner pattern. *)
Lemma decimal_not_owner_char (c : char) :
  is_decimal c = true ->
  is_upper_AZ c = false /\ is_space c = false /\ ~ In c (py "/.'-").
Proof.
  unfold is_decimal. destruct (is_ascii c) eqn:A; intros D.
  - apply ascii_digit_cases in D. simpl in D.
    repeat (destruct D as [<- | D];
            [vm_compute; repeat split; try reflexivity;
             intros F; repeat (destruct F as [F | F]; [discriminate F|]);
             exact F|]).
    destruct D.
  - unfold is_ascii in A. apply N.ltb_ge in A.
    split; [|split].
    + unfold is_upper_AZ, between. apply andb_false_iff. right.
      apply N.leb_gt. lia.
    + apply uni_decimal_not_space. exact D.
    + simpl. intros F.
      repeat (destruct F as [F | F]; [subst c; vm_compute in A; apply A; reflexivity|]).
      exact F.
Qed.

(** C10, in the form that holds. The owner-name rule accepts only the letters A-Z, white
    space and the characters / . ' - ; the white space is that of [\s], which
    goes beyond ASCII.  A line whose trimmed text has any other character
    does not match the owner pattern, is not an owner name, and is not
    appended to the owner block (the block stays as it was, or is emptied
    when the line is a header).  An accented capital such as U+00C9 and
    every digit are such other characters. *)
Theorem C10_owner_rule_characters :
  (forall (st : State) (line : pystr) (c : char),
      In c (strip line) ->
      is_upper_AZ c = false -> is_space c = false -> ~ In c (py "/.'-") ->
      re_match owner_re (strip line) = None
      /\ is_owner_name line = false
      /\ (current_proprietaire (process_line sections_filtre plans_filtre st line)
          = current_proprietaire st
          \/ current_proprietaire
               (process_line sections_filtre plans_filtre st line) = []))
  /\ (forall c : char,
        c = E_ACUTE \/ is_decimal c = true ->
        is_upper_AZ c = false /\ is_space c = false /\ ~ In c (py "/.'-")).
Proof.
  split.
  - intros st line c Hc Hu Hs Hp.
    assert (M : re_match owner_re (strip line) = None).
    { destruct (re_match owner_re (strip line)) eqn:E; [|reflexivity].
      exfalso.
      assert (Hin : in_set owner_set c = true).
      { apply (owner_re_chars (strip line)); [congruence | exact Hc]. }
      apply owner_set_chars in Hin.
      destruct Hin as [Hin | [Hin | Hin]]; [congruence | congruence | auto]. }
    assert (O : is_owner_name line = false).
    { unfold is_owner_name. rewrite M. reflexivity. }
    repeat split; auto.
    destruct (header_match line) as [hm|] eqn:H.
    + right. rewrite (step_header st line hm H).
      reflexivity.
    + left. apply step_not_owner; assumption.
  - intros c [-> | D]; [|apply decimal_not_owner_char; exact D].
    vm_compute. repeat split; try reflexivity.
    intros F. repeat (destruct F as [F | F]; [discriminate F|]). exact F.
Qed.

End Properties.

(** * The properties at sample documents *)

(** Settles a closed statement about a sample by evaluation. *)
Ltac evaluated :=
  vm_compute;
  repeat match goal with
         | |- _ /\ _ => split
         | |- _ = _ => reflexivity
         | |- _ -> False => let F := fresh in intros F; discriminate F
         | |- _ <> _ => let F := fresh in intros F; discriminate F
         end.

Lemma lot_line_is_lot_share : lot_share_line (U := latin1_db) lot_line.
Proof. evaluated. Defined.

Lemma names_are_owner_names :
  owner_name_line (U := latin1_db) (py "DUPONT JEAN")
  /\ owner_name_line (U := latin1_db) (py "DUPONT MARIE").
Proof. evaluated. Defined.

Lemma header_AC_124_relevant :
  relevant_header (U := latin1_db) [py "AC"] [py "124"] header_AC_124.
Proof. eexists. split; [reflexivity | vm_compute; reflexivity]. Defined.

(** C2 at a lot line that comes first in parcel AC 124. *)
Lemma C2_witness :
  lot_share_line (U := latin1_db) lot_line
  /\ process_line (U := latin1_db) [py "AC"] [py "124"] (in_parcel [] []) lot_line
     = in_parcel [] [].
Proof.
  split; [exact lot_line_is_lot_share|].
  apply (@C2_lot_line_without_owner_dropped latin1_db [py "AC"] [py "124"]
           (in_parcel [] []) lot_line eq_refl eq_refl lot_line_is_lot_share).
Defined.

(** C3 at MARTIN PAUL with an address, then the header, DUPONT JEAN and
    a lot line. *)
Lemma C3_witness :
  exists r,
    data (process_lines (U := latin1_db) [py "AC"] [py "124"] (in_parcel [] [])
            [py "MARTIN PAUL"; py "2 RUE DU PORT 13002 MARSEILLE";
             header_AC_124; py "DUPONT JEAN"; lot_line])
    = data (process_lines (U := latin1_db) [py "AC"] [py "124"] (in_parcel [] [])
              [py "MARTIN PAUL"; py "2 RUE DU PORT 13002 MARSEILLE"]) ++ [r]
    /\ col_Proprietaires r = strip (py "DUPONT JEAN")
    /\ col_Adresse_Postale_Proprietaire r = [].
Proof.
  apply (proj1 (proj2 (@C3_header_resets_owner_state latin1_db [py "AC"] [py "124"]))
           (in_parcel [] []) (py "MARTIN PAUL")
           (py "2 RUE DU PORT 13002 MARSEILLE") header_AC_124
           (py "DUPONT JEAN") lot_line
           header_AC_124_relevant (proj1 names_are_owner_names)
           lot_line_is_lot_share).
Defined.

(** The stored share at the sample lot line, after DUPONT JEAN. *)
Lemma share_fraction_at_lot_line :
  exists r n w1 w2 d,
    data (process_line (U := latin1_db) [py "AC"] [py "124"]
            (in_parcel [py "DUPONT JEAN"] []) lot_line) = [] ++ [r]
    /\ n ++ w1 ++ py "/" ++ w2 ++ d = py "123 / 10000"
    /\ col_Tantiemes r = n ++ replace_space w1 ++ py "/" ++ replace_space w2 ++ d.
Proof.
  destruct (proj1 (@share_fraction_spaces_removed latin1_db [py "AC"] [py "124"])
              (in_parcel [py "DUPONT JEAN"] []) lot_line
              {| m_string := lot_line; m_marks := [(1, 5); (0, 4)] |}
              {| m_string := lot_line; m_marks := [(1, 18); (0, 7)] |}
              eq_refl ltac:(discriminate) eq_refl eq_refl eq_refl)
    as (r & n & w1 & w2 & d & E & G & _ & _ & _ & _ & _ & _ & _ & T & _).
  exists r, n, w1, w2, d. split; [exact E|]. split; [|exact T].
  symmetry. exact G.
Defined.

(** C4 at a fraction with tabs around the slash.  The pattern of line 64
    admits any white space there ([\s*]) and matches the token, line 68
    takes out space characters only, and the stored share keeps the two
    tabs: it is not "123/10000", the fraction without its white space. *)
Lemma C4_tab_fraction_kept :
  option_map (fun tm => group tm 1)
             (tantiemes_match (U := latin1_db) (py "Lot 1 " ++ tab_fraction))
  = Some tab_fraction
  /\ map col_Tantiemes (extract (U := latin1_db) [py "AC"] [py "124"] tab_lines)
     = [tab_fraction]
  /\ existsb is_space tab_fraction = true
  /\ tab_fraction <> py "123/10000".
Proof. evaluated. Qed.

(** C6 at DUPONT JEAN and DUPONT MARIE, then the sample lot line. *)
Lemma C6_witness :
  current_proprietaire
    (process_lines (U := latin1_db) [py "AC"] [py "124"] (in_parcel [] [])
       [py "DUPONT JEAN"; py "DUPONT MARIE"])
  = [strip (py "DUPONT JEAN"); strip (py "DUPONT MARIE")]
  /\ exists r,
      data (process_lines (U := latin1_db) [py "AC"] [py "124"] (in_parcel [] [])
              [py "DUPONT JEAN"; py "DUPONT MARIE"; lot_line])
      = [] ++ [r]
      /\ col_Proprietaires r
         = strip (py "DUPONT JEAN") ++ [LF] ++ strip (py "DUPONT MARIE").
Proof.
  apply (@C6_two_names_one_record latin1_db [py "AC"] [py "124"]
           (in_parcel [] []) (py "DUPONT JEAN") (py "DUPONT MARIE") lot_line
           eq_refl (or_introl eq_refl)
           (proj1 names_are_owner_names) (proj2 names_are_owner_names)
           lot_line_is_lot_share).
Defined.

(** C7 at the sample lot line, after DUPONT JEAN and an address. *)
Lemma C7_witness :
  let st := in_parcel [py "DUPONT JEAN"] (py "1 RUE DE LA PAIX 75001 PARIS") in
  let st' := process_line (U := latin1_db) [py "AC"] [py "124"] st lot_line in
  current_proprietaire st' = current_proprietaire st
  /\ current_adresse st' = current_adresse st
  /\ current_section st' = current_section st
  /\ current_plan st' = current_plan st
  /\ is_in_relevant_parcel st' = is_in_relevant_parcel st
  /\ exists new, data st' = data st ++ new /\ List.length new <= 1.
Proof.
  intros st.
  apply (@C7_lot_line_keeps_owner_state latin1_db [py "AC"] [py "124"]
           st lot_line lot_line_is_lot_share).
Defined.

(** C8 at the sample header under the plan filter 0124. *)
Lemma C8_witness :
  is_in_relevant_parcel
    (process_line (U := latin1_db) [py "AC"] [py "0124"] initial header_AC_124)
  = false
  /\ forall rest : list pystr,
      Forall (fun l => header_match (U := latin1_db) l = None) rest ->
      data (process_lines (U := latin1_db) [py "AC"] [py "0124"] initial
              (header_AC_124 :: rest)) = data initial.
Proof.
  apply (@C8_plan_compared_as_string latin1_db [py "AC"] [py "0124"]
           initial header_AC_124
           {| m_string := header_AC_124; m_marks := [(3, 23); (2, 20); (1, 12); (0, 10)] |}
           eq_refl).
  left. split; [reflexivity|]. constructor; [reflexivity | constructor].
Defined.

(** C9 at a name and a lot line that come before any header. *)
Lemma C9_witness :
  process_lines (U := latin1_db) [py "AC"] [py "124"] initial
    [py "DUPONT JEAN"; lot_line] = initial.
Proof.
  apply (proj1 (@C9_nothing_before_first_header latin1_db [py "AC"] [py "124"])).
  repeat constructor.
Defined.

(** C10 at a name that starts with an accented capital. *)
Lemma C10_witness :
  re_match (U := latin1_db) owner_re (strip accent_name) = None
  /\ is_owner_name (U := latin1_db) accent_name = false
  /\ (current_proprietaire
        (process_line (U := latin1_db) [py "AC"] [py "124"]
           (in_parcel [py "DUPONT JEAN"] []) accent_name)
      = current_proprietaire (in_parcel [py "DUPONT JEAN"] [])
      \/ current_proprietaire
           (process_line (U := latin1_db) [py "AC"] [py "124"]
              (in_parcel [py "DUPONT JEAN"] []) accent_name) = []).
Proof.
  apply (proj1 (@C10_owner_rule_characters latin1_db [py "AC"] [py "124"])
           (in_parcel [py "DUPONT JEAN"] []) accent_name E_ACUTE).
  - left. reflexivity.
  - reflexivity.
  - reflexivity.
  - intros F. repeat (destruct F as [F | F]; [discriminate F|]). exact F.
Defined.

(** C10 as stated fails on white space beyond ASCII: a name with a
    no-break space, which is not an ASCII character, matches the owner
    pattern and is appended to the owner block. *)
Lemma C10_no_break_space_accepted :
  existsb (char_eqb NBSP) (strip nbsp_name) = true
  /\ is_ascii NBSP = false
  /\ is_some (re_match (U := latin1_db) owner_re (strip nbsp_name)) = true
  /\ is_owner_name (U := latin1_db) nbsp_name = true
  /\ current_proprietaire
       (process_line (U := latin1_db) [py "AC"] [py "124"]
          (in_parcel [py "DUPONT JEAN"] []) nbsp_name)
     = [py "DUPONT JEAN"; nbsp_name].
Proof. evaluated. Qed.

(** * Further properties of [parse_pdf] *)

Section Further.

Context {U : UnicodeDB}.
Variable sections_filtre plans_filtre : list pystr.

Lemma is_some_true (A : Type) (o : option A) : is_some o = true <-> o <> None.
Proof. destruct o; simpl; split; congruence. Qed.

Lemma is_lot_share_iff (line : pystr) :
  is_lot_share line = true <-> lot_share_line line.
Proof.
  unfold is_lot_share, lot_share_line.
  rewrite !andb_true_iff, negb_true_iff, !is_some_true.
  destruct (header_match line); simpl; intuition congruence.
Qed.

Lemma is_address_iff (line : pystr) :
  is_address line = true <-> address_line line.
Proof.
  unfold is_address, address_line.
  rewrite !andb_true_iff, !negb_true_iff, andb_false_iff, !is_some_true.
  destruct (header_match line), (lot_match line), (tantiemes_match line);
    simpl; intuition congruence.
Qed.

Lemma lot_share_frame (st : State) (line : pystr) :
  lot_share_line line ->
  current_proprietaire (process_line sections_filtre plans_filtre st line)
  = current_proprietaire st
  /\ current_adresse (process_line sections_filtre plans_filtre st line)
     = current_adresse st.
Proof.
  intros Hl. destruct (lot_share_matches line Hl) as (lm & tm & L & T).
  destruct Hl as (H & _).
  destruct (is_in_relevant_parcel st) eqn:R.
  - rewrite (step_lot sections_filtre plans_filtre st line lm tm H R L T).
    destruct (truthy (current_proprietaire st)); split; reflexivity.
  - rewrite (step_outside sections_filtre plans_filtre st line H R).
    split; reflexivity.
Qed.

(** The branches of the loop body inside a relevant parcel. *)
Lemma step_cases (st : State) (line : pystr) :
  header_match line = None -> is_in_relevant_parcel st = true ->
  let st' := process_line sections_filtre plans_filtre st line in
  (lot_share_line line /\ current_proprietaire st' = current_proprietaire st
   /\ current_adresse st' = current_adresse st)
  \/ (owner_name_line line
      /\ current_proprietaire st'
         = (if truthy (current_adresse st) then [] else current_proprietaire st)
           ++ [strip line]
      /\ current_adresse st' = [] /\ data st' = data st)
  \/ (address_line line /\ current_proprietaire st <> []
      /\ current_adresse st = []
      /\ current_proprietaire st' = current_proprietaire st
      /\ current_adresse st' = strip line ++ [LF] /\ data st' = data st)
  \/ st' = st.
Proof.
  intros H R.
  destruct (is_lot_share line) eqn:Els.
  { left. apply is_lot_share_iff in Els.
    destruct (lot_share_frame st line Els) as (E1 & E2). auto. }
  destruct (is_owner_name line) eqn:Eo.
  { right. left. assert (Ho : owner_name_line line) by (split; assumption).
    simpl. rewrite (step_owner sections_filtre plans_filtre st line Ho R). simpl.
    repeat split; auto. destruct (truthy (current_adresse st)) eqn:Ea; auto.
    destruct (current_adresse st); [reflexivity | discriminate]. }
  assert (Enl : is_some (lot_match line) && is_some (tantiemes_match line)
                = false).
  { unfold is_lot_share in Els. rewrite H in Els. exact Els. }
  assert (Est : process_line sections_filtre plans_filtre st line
                = if truthy (current_proprietaire st)
                     && negb (truthy (current_adresse st))
                  then if is_some (re_search digit_re line)
                          && is_some (re_search alpha_re line)
                       then {| current_section := current_section st;
                               current_plan := current_plan st;
                               current_proprietaire := current_proprietaire st;
                               current_adresse :=
                                 current_adresse st ++ strip line ++ [LF];
                               is_in_relevant_parcel := is_in_relevant_parcel st;
                               data := data st |}
                       else st
                  else st).
  { unfold process_line. rewrite H, R, Eo. revert Enl.
    destruct (lot_match line), (tantiemes_match line); simpl;
      intros Enl; try discriminate Enl; reflexivity. }
  simpl. rewrite Est.
  destruct (current_proprietaire st) as [|o os] eqn:Ep; simpl; [auto|].
  destruct (current_adresse st) as [|c ad] eqn:Ea; simpl; [|auto].
  destruct (is_some (re_search digit_re line)
            && is_some (re_search alpha_re line)) eqn:Eda;
    [|rewrite Ep, Ea; auto].
  right. right. left. simpl.
  split; [|repeat split; auto; discriminate].
  apply is_address_iff. unfold is_address.
  rewrite H, Eo, Enl. simpl. apply andb_true_iff in Eda.
  destruct Eda as [-> ->]. reflexivity.
Qed.

(** ** Pages *)

(** X1. The pages of a document are read as one sequence of lines: the
    state runs on over a page break, and a page without text ([None] or
    the empty string) changes nothing, wherever it stands. *)
Theorem X1_pages_are_one_sequence :
  (forall pages : list (option pystr),
      parse_pdf sections_filtre plans_filtre pages
      = extract sections_filtre plans_filtre (flat_map page_lines pages))
  /\ (forall p1 p2 : list (option pystr),
        parse_pdf sections_filtre plans_filtre (p1 ++ None :: p2)
        = parse_pdf sections_filtre plans_filtre (p1 ++ p2))
  /\ (forall p1 p2 : list (option pystr),
        parse_pdf sections_filtre plans_filtre (p1 ++ Some [] :: p2)
        = parse_pdf sections_filtre plans_filtre (p1 ++ p2)).
Proof.
  split; [|split].
  - apply parse_pdf_extract.
  - intros p1 p2. rewrite !parse_pdf_extract, !flat_map_app. reflexivity.
  - intros p1 p2. rewrite !parse_pdf_extract, !flat_map_app. reflexivity.
Qed.

(** ** Records are only appended *)

Lemma records_grow (lines : list pystr) :
  forall st : State,
  exists new,
    data (process_lines sections_filtre plans_filtre st lines) = data st ++ new
    /\ List.length new <= List.length (filter is_lot_share lines).
Proof.
  induction lines as [|l ls IH]; intros st.
  - exists []. rewrite app_nil_r. split; [reflexivity | simpl; lia].
  - unfold process_lines. simpl fold_left.
    destruct (IH (process_line sections_filtre plans_filtre st l))
      as (new & E & Hlen).
    unfold process_lines in E. rewrite E.
    destruct (header_match l) as [hm|] eqn:H.
    + rewrite (step_header sections_filtre plans_filtre st l hm H). simpl.
      exists new. split; [reflexivity|].
      simpl filter. destruct (is_lot_share l); simpl; lia.
    + destruct (step_no_header sections_filtre plans_filtre st l H)
        as (_ & _ & _ & Hd).
      destruct Hd as [-> | (lm & tm & L & T & _ & _ & ->)].
      * exists new. split; [reflexivity|].
        simpl filter. destruct (is_lot_share l); simpl; lia.
      * exists (row_of st lm tm :: new). rewrite <- app_assoc.
        split; [reflexivity|].
        assert (Els : is_lot_share l = true).
        { unfold is_lot_share. rewrite H, L, T. reflexivity. }
        simpl. rewrite Els. simpl. lia.
Qed.

(** X2. The records are only ever appended: the result on a longer
    sequence of lines starts with the result on its first part, in the
    same order.  A line adds at most one record, so there are never more
    records than lot and share lines. *)
Theorem X2_records_append_only :
  (forall l1 l2 : list pystr,
      exists new,
        extract sections_filtre plans_filtre (l1 ++ l2)
        = extract sections_filtre plans_filtre l1 ++ new)
  /\ (forall lines : list pystr,
        List.length (extract sections_filtre plans_filtre lines)
        <= List.length (filter is_lot_share lines)).
Proof.
  split.
  - intros l1 l2. unfold extract. rewrite process_lines_app.
    destruct (records_grow l2
                (process_lines sections_filtre plans_filtre initial l1))
      as (new & E & _).
    exists new. exact E.
  - intros lines. unfold extract.
    destruct (records_grow lines initial) as (new & E & Hlen).
    rewrite E. simpl. exact Hlen.
Qed.

(** ** Filters *)

(** X3. With an empty section filter or an empty plan filter there is no
    record, whatever the document. *)
Theorem X3_empty_filter_no_record :
  forall (filtre : list pystr) (pages : list (option pystr)),
    parse_pdf [] filtre pages = [] /\ parse_pdf filtre [] pages = [].
Proof.
  intros filtre pages. rewrite !parse_pdf_extract. split.
  - destruct (filters_invariant [] filtre (flat_map page_lines pages))
      as [_ F].
    unfold extract.
    destruct (data (process_lines [] filtre initial (flat_map page_lines pages)))
      as [|r rs]; [reflexivity|].
    inversion F as [|? ? (sec & pl & _ & _ & I & _) _]. destruct I.
  - destruct (filters_invariant filtre [] (flat_map page_lines pages))
      as [_ F].
    unfold extract.
    destruct (data (process_lines filtre [] initial (flat_map page_lines pages)))
      as [|r rs]; [reflexivity|].
    inversion F as [|? ? (sec & pl & _ & _ & _ & I) _]. destruct I.
Qed.

Lemma outside_lines_skipped (mid : list pystr) :
  forall st : State,
    is_in_relevant_parcel st = false ->
    Forall (fun l => header_match l = None) mid ->
    process_lines sections_filtre plans_filtre st mid = st.
Proof.
  induction mid as [|l ls IH]; intros st R Hmid; [reflexivity|].
  inversion Hmid as [|? ? Hl Hls]; subst.
  unfold process_lines. simpl fold_left.
  rewrite (step_outside sections_filtre plans_filtre st l Hl R).
  apply IH; assumption.
Qed.

(** X4. The lines of a parcel outside the filters leave no trace: after a
    header that does not pass the filters, the lines up to the next header
    can be taken out of the document without any change to the state that
    follows, and so to the result. *)
Theorem X4_outside_parcel_leaves_no_trace
        (st : State) (h : pystr) (hm : Match) (mid rest : list pystr) :
  header_match h = Some hm ->
  py_in (header_section hm) sections_filtre
  && py_in (header_plan hm) plans_filtre = false ->
  Forall (fun l => header_match l = None) mid ->
  process_lines sections_filtre plans_filtre st (h :: mid ++ rest)
  = process_lines sections_filtre plans_filtre st (h :: rest).
Proof.
  intros H Rel Hmid. unfold process_lines. simpl fold_left.
  rewrite fold_left_app.
  set (s := process_line sections_filtre plans_filtre st h).
  assert (R : is_in_relevant_parcel s = false).
  { unfold s. rewrite (step_header sections_filtre plans_filtre st h hm H).
    exact Rel. }
  change (fold_left (process_line sections_filtre plans_filtre) mid s)
    with (process_lines sections_filtre plans_filtre s mid).
  rewrite (outside_lines_skipped mid s R Hmid). reflexivity.
Qed.

(** ** Owner blocks and addresses *)

Lemma names_from_more (ls : list pystr) (l : pystr) (names : list pystr) :
  names_from ls names -> names_from (ls ++ [l]) names.
Proof.
  unfold names_from. intros F. eapply Forall_impl; [|exact F].
  intros n (x & I & E). exists x. split; [|exact E].
  apply in_or_app. left. exact I.
Qed.

Lemma address_from_more (ls : list pystr) (l : pystr) (adresse : pystr) :
  address_from ls adresse -> address_from (ls ++ [l]) adresse.
Proof.
  intros [E | (y & I & E)]; [left; exact E|].
  right. exists y. split; [|exact E]. apply in_or_app. left. exact I.
Qed.

(** What the owner pattern accepts: five characters or more, all of its
    set. *)
Lemma owner_name_shape (line : pystr) :
  is_owner_name line = true ->
  5 <= List.length (strip line)
  /\ forallb (in_set owner_set) (strip line) = true.
Proof.
  unfold is_owner_name. rewrite !andb_true_iff. intros [[[M _] _] _].
  unfold re_match in M.
  destruct (exec owner_re (strip line) 0 []) as [r|] eqn:E; [|discriminate].
  unfold owner_re in E.
  change (exec (AtBeginning :: ?p) ?s 0 []) with (exec p s 0 []) in E.
  apply exec_max_repeat in E. destruct E as (pre & post & Es & Hlen & Ha & E).
  simpl in E. destruct (at_end post) eqn:Ee; [|discriminate].
  rewrite Es, length_app, forallb_app, Ha. split; [lia|].
  destruct (at_end_cases post Ee) as [-> | ->]; reflexivity.
Qed.

(** The owner block, the address and the records, along the lines read
    so far. *)
Lemma blocks_invariant (lines : list pystr) :
  let st := process_lines sections_filtre plans_filtre initial lines in
  names_from lines (current_proprietaire st)
  /\ (current_adresse st = []
      \/ exists y, In y lines /\ is_address y = true
                   /\ current_adresse st = strip y ++ [LF])
  /\ Forall (fun r =>
               (exists names, names <> [] /\ names_from lines names
                              /\ col_Proprietaires r = join [LF] names)
               /\ address_from lines (col_Adresse_Postale_Proprietaire r))
            (data st).
Proof.
  apply (process_lines_invariant sections_filtre plans_filtre
    (fun ls st =>
       names_from ls (current_proprietaire st)
       /\ (current_adresse st = []
           \/ exists y, In y ls /\ is_address y = true
                        /\ current_adresse st = strip y ++ [LF])
       /\ Forall (fun r =>
                    (exists names, names <> [] /\ names_from ls names
                                   /\ col_Proprietaires r = join [LF] names)
                    /\ address_from ls (col_Adresse_Postale_Proprietaire r))
                 (data st))).
  - repeat split; [constructor | left; reflexivity | constructor].
  - intros ls s l (Hn & Ha & Hd).
    assert (Hn' : names_from (ls ++ [l]) (current_proprietaire s))
      by (apply names_from_more; exact Hn).
    assert (Ha' : current_adresse s = []
                  \/ exists y, In y (ls ++ [l]) /\ is_address y = true
                               /\ current_adresse s = strip y ++ [LF]).
    { destruct Ha as [E | (y & I & E)]; [left; exact E|].
      right. exists y. split; [|exact E]. apply in_or_app. left. exact I. }
    assert (Hd' : Forall (fun r =>
                    (exists names, names <> [] /\ names_from (ls ++ [l]) names
                                   /\ col_Proprietaires r = join [LF] names)
                    /\ address_from (ls ++ [l])
                         (col_Adresse_Postale_Proprietaire r)) (data s)).
    { eapply Forall_impl; [|exact Hd].
      intros r [(names & N0 & N1 & N2) A]. split.
      - exists names. repeat split; auto using names_from_more.
      - apply address_from_more. exact A. }
    assert (Il : In l (ls ++ [l])) by (apply in_or_app; right; left; reflexivity).
    destruct (header_match l) as [hm|] eqn:H.
    { rewrite (step_header sections_filtre plans_filtre s l hm H). simpl.
      repeat split; [constructor | left; reflexivity | exact Hd']. }
    destruct (is_in_relevant_parcel s) eqn:R;
      [|rewrite (step_outside sections_filtre plans_filtre s l H R); auto].
    destruct (step_cases s l H R)
      as [(Hl & Eo & Ea) | [(Ho & Eo & Ea & Ed) | [(Hy & _ & _ & Eo & Ea & Ed) | E]]].
    + rewrite Eo, Ea. repeat split; auto.
      destruct (step_no_header sections_filtre plans_filtre s l H)
        as (_ & _ & _ & Hdata).
      destruct Hdata as [-> | (lm & tm & _ & _ & _ & Hne & ->)]; [exact Hd'|].
      apply Forall_app. split; [exact Hd'|].
      constructor; [|constructor]. simpl. split.
      * exists (current_proprietaire s). auto.
      * destruct Ha' as [-> | (y & I & Ey & ->)]; [left; reflexivity|].
        right. exists y. repeat split; auto. apply strip_address.
    + rewrite Eo, Ea, Ed. repeat split; [|left; reflexivity | exact Hd'].
      apply Forall_app. split.
      * destruct (truthy (current_adresse s)); [constructor | exact Hn'].
      * constructor; [|constructor]. exists l. destruct Ho as [_ Ho]. auto.
    + rewrite Eo, Ea, Ed. repeat split; [exact Hn' | | exact Hd'].
      right. exists l. apply is_address_iff in Hy. auto.
    + rewrite E. auto.
Qed.

(** X5. No record without an owner: the owners of every record are the
    names of a block that is not empty, joined by line feeds, and every
    name is an owner-name line of the document, trimmed, of five
    characters or more, all among A-Z, white space and / . ' - . *)
Theorem X5_record_owners_from_name_lines (lines : list pystr) :
  Forall (fun r =>
            exists names,
              names <> []
              /\ col_Proprietaires r = join [LF] names
              /\ Forall (fun n =>
                           (exists l, In l lines /\ is_owner_name l = true
                                      /\ n = strip l)
                           /\ 5 <= List.length n
                           /\ forallb (in_set owner_set) n = true) names)
         (extract sections_filtre plans_filtre lines).
Proof.
  destruct (blocks_invariant lines) as (_ & _ & F). unfold extract.
  eapply Forall_impl; [|exact F].
  intros r [(names & N0 & N1 & N2) _]. exists names. repeat split; auto.
  unfold names_from in N1. eapply Forall_impl; [|exact N1].
  intros n (l & I & O & ->). split; [eauto|]. apply owner_name_shape. exact O.
Qed.

(** X6. The address of a record is never more than one line: it is
    empty, or it is one line of the document, trimmed, a line with a digit
    and an ASCII letter that is no header, no lot line and no owner name. *)
Theorem X6_record_address_is_one_line (lines : list pystr) :
  Forall (fun r =>
            col_Adresse_Postale_Proprietaire r = []
            \/ exists y, In y lines /\ address_line y
                         /\ col_Adresse_Postale_Proprietaire r = strip y)
         (extract sections_filtre plans_filtre lines).
Proof.
  destruct (blocks_invariant lines) as (_ & _ & F). unfold extract.
  eapply Forall_impl; [|exact F].
  intros r [_ [E | (y & I & A & E)]]; [left; exact E|].
  right. exists y. apply is_address_iff in A. auto.
Qed.

Lemma snoc_not_nil (A : Type) (l : list A) (x : A) : l ++ [x] <> [].
Proof. destruct l; discriminate. Qed.

(** Once the address is set, an address line changes nothing. *)
Lemma step_second_address (st : State) (line : pystr) :
  address_line line -> is_in_relevant_parcel st = true ->
  current_adresse st <> [] ->
  process_line sections_filtre plans_filtre st line = st.
Proof.
  intros Hy R Ha. assert (H : header_match line = None) by apply Hy.
  destruct (step_cases st line H R)
    as [(Hl & _) | [(Ho & _) | [(_ & _ & Ea & _) | E]]].
  - exfalso. destruct Hl as (_ & L & T). destruct Hy as (_ & [N | N] & _);
      congruence.
  - exfalso. destruct Ho as (_ & O). destruct Hy as (_ & _ & N & _).
    congruence.
  - congruence.
  - exact E.
Qed.

(** The state after the first name of a block. *)
Lemma first_name (st : State) (n : pystr) :
  is_in_relevant_parcel st = true ->
  current_proprietaire st = [] \/ current_adresse st <> [] ->
  owner_name_line n ->
  process_line sections_filtre plans_filtre st n =
  {| current_section := current_section st;
     current_plan := current_plan st;
     current_proprietaire := [strip n];
     current_adresse := [];
     is_in_relevant_parcel := true;
     data := data st |}.
Proof.
  intros R Hfresh Hn.
  rewrite (step_owner sections_filtre plans_filtre st n Hn R), R.
  destruct (current_adresse st) as [|c ad] eqn:A; simpl; [|reflexivity].
  destruct Hfresh as [-> | F]; [reflexivity | congruence].
Qed.

(** X7. Only the first address line of an owner block is kept: after a
    name, an address line and a second address line, a lot line emits one
    record whose address is the first of the two lines, trimmed. *)
Theorem X7_first_address_line_only (st : State) (n y1 y2 l : pystr) :
  is_in_relevant_parcel st = true ->
  current_proprietaire st = [] \/ current_adresse st <> [] ->
  owner_name_line n ->
  address_line y1 ->
  address_line y2 ->
  lot_share_line l ->
  exists r,
    data (process_lines sections_filtre plans_filtre st [n; y1; y2; l])
    = data st ++ [r]
    /\ col_Proprietaires r = strip n
    /\ col_Adresse_Postale_Proprietaire r = strip y1.
Proof.
  intros R Hfresh Hn H1 H2 Hl.
  destruct (lot_share_matches l Hl) as (lm & tm & L & T).
  destruct Hl as (Hl & _).
  unfold process_lines. simpl fold_left.
  rewrite (first_name st n R Hfresh Hn).
  rewrite (step_address sections_filtre plans_filtre _ y1 H1)
    by first [reflexivity | discriminate].
  simpl.
  rewrite (step_second_address _ y2 H2)
    by first [reflexivity | simpl; apply snoc_not_nil].
  rewrite (step_lot sections_filtre plans_filtre _ l lm tm)
    by first [assumption | reflexivity].
  simpl. eexists. split; [reflexivity|]. split; [reflexivity|].
  simpl. apply strip_address.
Qed.

(** X8. A name that comes after an address opens a new owner block: after
    a name, its address and a second name, a lot line emits one record
    whose owner is the second name alone and whose address is empty. *)
Theorem X8_name_after_address_opens_block (st : State) (n1 y n2 l : pystr) :
  is_in_relevant_parcel st = true ->
  current_proprietaire st = [] \/ current_adresse st <> [] ->
  owner_name_line n1 ->
  address_line y ->
  owner_name_line n2 ->
  lot_share_line l ->
  exists r,
    data (process_lines sections_filtre plans_filtre st [n1; y; n2; l])
    = data st ++ [r]
    /\ col_Proprietaires r = strip n2
    /\ col_Adresse_Postale_Proprietaire r = [].
Proof.
  intros R Hfresh H1 Hy H2 Hl.
  destruct (lot_share_matches l Hl) as (lm & tm & L & T).
  destruct Hl as (Hl & _).
  unfold process_lines. simpl fold_left.
  rewrite (first_name st n1 R Hfresh H1).
  rewrite (step_address sections_filtre plans_filtre _ y Hy)
    by first [reflexivity | discriminate].
  simpl.
  rewrite (first_name _ n2)
    by first [ reflexivity | exact H2
             | right; simpl; apply snoc_not_nil ].
  rewrite (step_lot sections_filtre plans_filtre _ l lm tm)
    by first [assumption | reflexivity].
  simpl. eexists. split; [reflexivity|]. split; reflexivity.
Qed.

(** ** Names with LOT in them *)

Lemma upper_app (a b : pystr) : upper (a ++ b) = upper a ++ upper b.
Proof. apply flat_map_app. Qed.

Lemma starts_with_app (x b : pystr) : starts_with x (x ++ b) = true.
Proof.
  induction x as [|c x IH]; simpl; [reflexivity|].
  unfold char_eqb. rewrite N.eqb_refl. exact IH.
Qed.

Lemma contains_middle (a x b : pystr) : contains x (a ++ x ++ b) = true.
Proof.
  induction a as [|c a IH].
  - simpl app. destruct (x ++ b) eqn:E; simpl; rewrite <- ?E;
      rewrite starts_with_app; reflexivity.
  - simpl. rewrite IH. apply orb_true_r.
Qed.

(** X9. A line with the letters LOT in it, whatever their case and
    wherever they stand, is never taken as an owner name: it is not
    appended to the owner block (which stays as it was, or is emptied when
    the line is a header). *)
Theorem X9_name_with_lot_rejected (st : State) (a m b : pystr) :
  upper m = py "LOT" ->
  is_owner_name (a ++ m ++ b) = false
  /\ (current_proprietaire
        (process_line sections_filtre plans_filtre st (a ++ m ++ b))
      = current_proprietaire st
      \/ current_proprietaire
           (process_line sections_filtre plans_filtre st (a ++ m ++ b)) = []).
Proof.
  intros Hm.
  assert (O : is_owner_name (a ++ m ++ b) = false).
  { unfold is_owner_name. rewrite !upper_app, Hm, contains_middle.
    apply andb_false_r. }
  split; [exact O|].
  destruct (header_match (a ++ m ++ b)) as [hm|] eqn:H.
  - right. rewrite (step_header sections_filtre plans_filtre st _ hm H).
    reflexivity.
  - left. apply step_not_owner; assumption.
Qed.

(** ** The format of the lot number and of the plan *)

(** A match of a pattern goes through a match of its last part. *)
Lemma exec_prefix (p1 p2 : list op) :
  forall (s : pystr) (pos : nat) (mk : marks) (r : nat * marks),
    exec (p1 ++ p2) s pos mk = Some r ->
    exists c rest mk1,
      s = c ++ rest /\ exec p2 rest (pos + List.length c) mk1 = Some r.
Proof.
  induction p1 as [|o p1 IH]; intros s pos mk r H.
  - exists [], s, mk. simpl. rewrite Nat.add_0_r. auto.
  - destruct o as [cs | lo cs | n | |]; simpl app in H.
    + apply exec_one in H. destruct H as (x & s' & -> & _ & H).
      apply IH in H. destruct H as (c & rest & mk1 & -> & H).
      exists (x :: c), rest, mk1. split; [reflexivity|].
      simpl. rewrite Nat.add_succ_r. exact H.
    + apply exec_max_repeat in H. destruct H as (pre & post & -> & _ & _ & H).
      apply IH in H. destruct H as (c & rest & mk1 & -> & H).
      exists (pre ++ c), rest, mk1. rewrite app_assoc. split; [reflexivity|].
      rewrite length_app, Nat.add_assoc. exact H.
    + simpl in H. apply IH in H. exact H.
    + simpl in H. destruct (Nat.eqb pos 0); [|discriminate].
      apply IH in H. exact H.
    + simpl in H. destruct (at_end s); [|discriminate].
      apply IH in H. exact H.
Qed.

(** A pattern that ends with a group of digits captures digits, one at
    least. *)
Lemma final_digit_group (p1 : list op) (a b : nat) (line : pystr) (m : Match) :
  a <> b ->
  re_search (p1 ++ [Mark a; MaxRepeat 1 [Category CategoryDigit]; Mark b]) line
  = Some m ->
  exists pa pb,
    get_mark (m_marks m) a = Some pa /\ get_mark (m_marks m) b = Some pb
    /\ digits (substring (m_string m) pa pb).
Proof.
  intros Hab H. apply re_search_some in H.
  destruct H as (sk & rest & e & El & Es & H).
  apply exec_prefix in H. destruct H as (c & rest' & mk1 & -> & H).
  change (exec (Mark a :: ?p) ?s ?q ?k) with (exec p s q ((a, q) :: k)) in H.
  apply exec_max_repeat in H. destruct H as (d & tail & -> & Hlen & Hd & H).
  simpl in H. injection H as He Hm.
  exists (List.length sk + List.length c), e. rewrite <- Hm, He. simpl.
  rewrite Nat.eqb_refl.
  destruct (Nat.eqb_spec b a) as [E | _]; [congruence|].
  rewrite Nat.eqb_refl. split; [reflexivity|]. split; [reflexivity|].
  rewrite Es, El, <- length_app.
  rewrite (substring_at (sk ++ c ++ d ++ tail) (sk ++ c) d tail e).
  - split; [apply nonempty_length; exact Hlen|].
    rewrite forallb_category in Hd. exact Hd.
  - rewrite <- app_assoc. reflexivity.
  - rewrite <- He, length_app. reflexivity.
Qed.

Lemma lot_match_digits (line : pystr) (lm : Match) :
  lot_match line = Some lm -> digits (group lm 1).
Proof.
  intros H.
  destruct (final_digit_group
              (lit_ignore "Lot" ++ [MaxRepeat 1 [Category CategorySpace]])
              0 1 line lm ltac:(discriminate) H) as (pa & pb & Ea & Eb & D).
  unfold group. simpl Nat.sub. rewrite Ea, Eb. exact D.
Qed.

Lemma lstrip_nonspace (s : pystr) :
  Forall (fun c => is_space c = false) s -> lstrip s = s.
Proof. intros [|c t Hc _]; simpl; [reflexivity|]. rewrite Hc. reflexivity. Qed.

(** A string without white space is its own trimmed form. *)
Lemma strip_nonspace (s : pystr) :
  Forall (fun c => is_space c = false) s -> strip s = s.
Proof.
  intros F. unfold strip, rstrip. rewrite (lstrip_nonspace s F).
  rewrite lstrip_nonspace by (apply Forall_rev; exact F).
  apply rev_involutive.
Qed.

Lemma strip_digits (s : pystr) : digits s -> strip s = s.
Proof.
  intros [_ D]. apply strip_nonspace. rewrite forallb_forall in D.
  apply Forall_forall. intros c Hc. apply decimal_not_owner_char. auto.
Qed.

Lemma header_plan_digits (line : pystr) (hm : Match) :
  header_match line = Some hm -> digits (header_plan hm).
Proof.
  intros H.
  destruct (final_digit_group
              (lit_ignore "Section" ++ [spaces0] ++ lit ":" ++ [spaces0]
               ++ [Mark 0; MaxRepeat 1 [Category CategoryWord]; Mark 1]
               ++ [spaces0] ++ lit_ignore "Plan" ++ [spaces0] ++ lit ":"
               ++ [spaces0])
              2 3 line hm ltac:(discriminate) H) as (pa & pb & Ea & Eb & D).
  unfold header_plan, group. simpl Nat.sub. rewrite Ea, Eb.
  rewrite (strip_digits _ D). exact D.
Qed.

(** X10. In every record the lot number is a string of decimal digits,
    one at least, and so is the plan. *)
Theorem X10_lot_number_and_plan_are_digits (lines : list pystr) :
  Forall (fun r =>
            digits (col_N_Lot r)
            /\ exists p, col_Plan r = Some p /\ digits p)
         (extract sections_filtre plans_filtre lines).
Proof.
  unfold extract.
  apply (process_lines_invariant sections_filtre plans_filtre
    (fun _ st =>
       (is_in_relevant_parcel st = true ->
        exists p, current_plan st = Some p /\ digits p)
       /\ Forall (fun r =>
                    digits (col_N_Lot r)
                    /\ exists p, col_Plan r = Some p /\ digits p)
                 (data st))).
  - split; [discriminate | constructor].
  - intros _ s l [Hp Hd].
    destruct (header_match l) as [hm|] eqn:H.
    + rewrite (step_header sections_filtre plans_filtre s l hm H). simpl.
      split; [|exact Hd]. intros _. exists (header_plan hm).
      split; [reflexivity|]. exact (header_plan_digits l hm H).
    + destruct (step_no_header sections_filtre plans_filtre s l H)
        as (_ & Ep & Er & Hdata).
      rewrite Ep, Er. split; [exact Hp|].
      destruct Hdata as [-> | (lm & tm & L & _ & R & _ & ->)]; [exact Hd|].
      apply Forall_app. split; [exact Hd|].
      constructor; [|constructor]. simpl.
      split; [exact (lot_match_digits l lm L) | exact (Hp R)].
Qed.

(** ** The lines of a page *)

Lemma split_lines_split_on (cur s : pystr) :
  split_lines_aux cur s = split_on_aux LF cur s.
Proof.
  revert cur. induction s as [|c s IH]; intros cur; simpl; [reflexivity|].
  destruct (char_eqb c LF); rewrite IH; reflexivity.
Qed.

Lemma split_on_aux_nonempty (sep : char) (cur s : pystr) :
  split_on_aux sep cur s <> [].
Proof.
  revert cur. induction s as [|c s IH]; intros cur; simpl; [discriminate|].
  destruct (char_eqb c sep); [discriminate | apply IH].
Qed.

Lemma join_cons (sep x : pystr) (l : list pystr) :
  l <> [] -> join sep (x :: l) = x ++ sep ++ join sep l.
Proof. destruct l; [congruence | reflexivity]. Qed.

Lemma join_split_on_aux (sep : char) (cur s : pystr) :
  join [sep] (split_on_aux sep cur s) = rev cur ++ s.
Proof.
  revert cur. induction s as [|c s IH]; intros cur; simpl split_on_aux.
  - simpl. rewrite app_nil_r. reflexivity.
  - destruct (char_eqb c sep) eqn:E.
    + apply char_eqb_eq in E. subst c.
      rewrite join_cons by apply split_on_aux_nonempty.
      rewrite IH. reflexivity.
    + rewrite IH. simpl. rewrite <- app_assoc. reflexivity.
Qed.

Lemma split_on_aux_free (sep : char) (cur s : pystr) :
  ~ In sep cur ->
  Forall (fun piece => ~ In sep piece) (split_on_aux sep cur s).
Proof.
  revert cur. induction s as [|c s IH]; intros cur Hcur; simpl.
  - constructor; [|constructor]. rewrite <- in_rev. exact Hcur.
  - destruct (char_eqb c sep) eqn:E.
    + constructor; [rewrite <- in_rev; exact Hcur|].
      apply IH. intros [].
    + apply IH. intros [F | F]; [|auto].
      subst c. unfold char_eqb in E. rewrite N.eqb_refl in E. discriminate.
Qed.

Lemma split_on_aux_length (sep : char) (cur s : pystr) :
  List.length (split_on_aux sep cur s)
  = S (List.length (filter (fun c => char_eqb c sep) s)).
Proof.
  revert cur. induction s as [|c s IH]; intros cur; simpl; [reflexivity|].
  destruct (char_eqb c sep); simpl; rewrite IH; reflexivity.
Qed.

(** X11. The lines of a page have no line feed in them, there is one
    line more than there are line feeds in the text, and the lines joined
    by line feeds are the text of the page again. *)
Theorem X11_page_split_into_lines (t : pystr) :
  join [LF] (split_lines t) = t
  /\ Forall (fun line => ~ In LF line) (split_lines t)
  /\ List.length (split_lines t)
     = S (List.length (filter (fun c => char_eqb c LF) t))
  /\ Forall (fun line => ~ In LF line) (page_lines (Some t)).
Proof.
  unfold split_lines. rewrite split_lines_split_on.
  assert (F : Forall (fun line => ~ In LF line) (split_on_aux LF [] t))
    by (apply split_on_aux_free; intros []).
  repeat split.
  - apply join_split_on_aux.
  - exact F.
  - apply split_on_aux_length.
  - destruct t as [|c t']; [constructor|].
    unfold page_lines, split_lines. rewrite split_lines_split_on. exact F.
Qed.

(** ** The filters of the caller *)

Lemma In_lstrip (c : char) (s : pystr) : In c (lstrip s) -> In c s.
Proof.
  induction s as [|x s IH]; simpl; [auto|].
  destruct (is_space x); [auto | simpl; auto].
Qed.

Lemma In_strip (c : char) (s : pystr) : In c (strip s) -> In c s.
Proof.
  unfold strip, rstrip. intros H. apply in_rev in H. apply In_lstrip in H.
  apply in_rev in H. apply In_lstrip in H. exact H.
Qed.

Lemma strip_idempotent (s : pystr) : strip (strip s) = strip s.
Proof.
  destruct (strip_cases s) as [E | (c & t & E & Hc)].
  - rewrite E. reflexivity.
  - unfold strip at 1. rewrite E. simpl lstrip. rewrite Hc, <- E.
    unfold strip. apply rstrip_idempotent.
Qed.

Lemma split_on_aux_app (sep : char) (a b : pystr) :
  forall cur : pystr,
    split_on_aux sep cur (a ++ sep :: b)
    = split_on_aux sep cur a ++ split_on sep b.
Proof.
  induction a as [|c a IH]; intros cur; simpl.
  - unfold char_eqb. rewrite N.eqb_refl. reflexivity.
  - destruct (char_eqb c sep); [simpl; f_equal|]; apply IH.
Qed.

Lemma split_on_free (sep : char) (x : pystr) :
  ~ In sep x -> forall cur, split_on_aux sep cur x = [rev cur ++ x].
Proof.
  induction x as [|c x IH]; intros Hx cur; simpl.
  - rewrite app_nil_r. reflexivity.
  - destruct (char_eqb c sep) eqn:E.
    + apply char_eqb_eq in E. exfalso. apply Hx. left. exact E.
    + rewrite IH by (intros F; apply Hx; right; exact F).
      simpl. rewrite <- app_assoc. reflexivity.
Qed.

(** X12. The plan filter that the caller builds from the text field: its
    entries are trimmed and have no comma, there is one entry more than
    there are commas (so one entry, the empty string, for an empty field),
    and a piece of text between two commas is an entry, trimmed.  The
    filters are built unless one of the two fields is empty. *)
Theorem X12_filters_from_text_fields :
  (forall plans_input : pystr,
      Forall (fun entry => strip entry = entry /\ ~ In COMMA entry)
             (clean_plans plans_input)
      /\ List.length (clean_plans plans_input)
         = S (List.length (filter (fun c => char_eqb c COMMA) plans_input)))
  /\ (forall a x b : pystr,
        ~ In COMMA x ->
        In (strip x) (clean_plans (a ++ [COMMA] ++ x ++ [COMMA] ++ b))
        /\ In (upper (strip x))
              (clean_sections (a ++ [COMMA] ++ x ++ [COMMA] ++ b)))
  /\ (forall sections_input plans_input : pystr,
        filtres sections_input plans_input = None
        <-> sections_input = [] \/ plans_input = []).
Proof.
  split; [|split].
  - intros input. unfold clean_plans, split_on. split.
    + apply Forall_map.
      eapply Forall_impl;
        [|apply (split_on_aux_free COMMA [] input); intros []].
      intros piece Hp. split; [apply strip_idempotent|].
      intros F. apply Hp. apply In_strip. exact F.
    + rewrite length_map. apply split_on_aux_length.
  - intros a x b Hx.
    assert (I : In x (split_on COMMA (a ++ [COMMA] ++ x ++ [COMMA] ++ b))).
    { unfold split_on. simpl app. rewrite split_on_aux_app.
      apply in_or_app. right. unfold split_on. rewrite split_on_aux_app.
      apply in_or_app. left. rewrite (split_on_free COMMA x Hx).
      left. reflexivity. }
    split.
    + unfold clean_plans. apply (in_map strip) in I. exact I.
    + unfold clean_sections.
      apply (in_map (fun s => upper (strip s))) in I. exact I.
  - intros si pi. unfold filtres.
    destruct si as [|c si]; destruct pi as [|d pi]; simpl;
      split; intros H; try reflexivity; try discriminate; auto;
      destruct H as [H | H]; discriminate H.
Qed.

(** * Properties of [parse_html] *)

(** The rows that the loop over the rows of one parcel appends. *)
Lemma html_lots_some (section plan nom adresse : pystr)
      (lignes_lots : list (list pystr)) :
  forall data data' : list Row,
    html_lots section plan nom adresse lignes_lots data = Ok data' ->
    exists new,
      data' = data ++ new
      /\ List.length new = List.length (filter two_cells lignes_lots)
      /\ Forall (fun r => col_Section r = Some section
                          /\ col_Plan r = Some plan
                          /\ col_Proprietaires r = nom
                          /\ col_Adresse_Postale_Proprietaire r = adresse)
                new
      /\ Forall (fun colonnes =>
                   two_cells colonnes = true ->
                   re_search html_lot_re (hd [] colonnes) <> None)
                lignes_lots.
Proof.
  induction lignes_lots as [|colonnes rest IH]; intros data data' H.
  - simpl in H. injection H as <-. exists []. rewrite app_nil_r.
    repeat split; constructor.
  - assert (Skip : two_cells colonnes = false ->
                   html_lots section plan nom adresse (colonnes :: rest) data
                   = html_lots section plan nom adresse rest data).
    { destruct colonnes as [|c1 [|c2 [|c3 cs]]]; simpl;
        try reflexivity; discriminate. }
    destruct (two_cells colonnes) eqn:E2.
    + destruct colonnes as [|c1 [|c2 [|c3 cs]]]; try discriminate E2.
      simpl in H. destruct (re_search html_lot_re c1) as [m|] eqn:Em;
        [|discriminate].
      apply IH in H. destruct H as (new & -> & Hlen & Hall & Hrows).
      eexists (_ :: new). rewrite <- app_assoc. split; [reflexivity|].
      repeat split.
      * simpl. rewrite Hlen. reflexivity.
      * constructor; [simpl; auto | exact Hall].
      * constructor; [|exact Hrows]. intros _. simpl. congruence.
    + rewrite (Skip eq_refl) in H. apply IH in H.
      destruct H as (new & -> & Hlen & Hall & Hrows).
      exists new. repeat split; auto.
      * simpl. rewrite E2. exact Hlen.
      * constructor; [|exact Hrows]. congruence.
Qed.

(** A parcel whose header does not pass is stepped over, without a look
    at its name, its address or its rows. *)
Lemma html_step_over (parcelle : Parcelle) (header : pystr)
      (rest : list Parcelle) (data : list Row) :
  sel_h2 parcelle = Some header ->
  html_relevant sections_filtre plans_filtre parcelle = false ->
  html_parcelles sections_filtre plans_filtre (parcelle :: rest) data
  = html_parcelles sections_filtre plans_filtre rest data.
Proof.
  intros Eh. unfold html_relevant. simpl. rewrite Eh. simpl.
  destruct (re_search html_header_re header) as [hm|]; [|reflexivity].
  intros ->. reflexivity.
Qed.

(** The rows of the parcels that the loop over the parcels appends. *)
Lemma html_parcelles_some (parcelles : list Parcelle) :
  forall data data' : list Row,
    html_parcelles sections_filtre plans_filtre parcelles data = Ok data' ->
    exists new,
      data' = data ++ new
      /\ Forall (within_filters sections_filtre plans_filtre) new
      /\ List.length new
         = List.length
             (flat_map (fun p => filter two_cells (sel_tr p))
                (filter (html_relevant sections_filtre plans_filtre) parcelles))
      /\ Forall (fun p =>
                   sel_h2 p <> None
                   /\ (html_relevant sections_filtre plans_filtre p = true ->
                       sel_nom p <> None /\ sel_adresse p <> None
                       /\ Forall (fun colonnes =>
                                    two_cells colonnes = true ->
                                    re_search html_lot_re (hd [] colonnes)
                                    <> None) (sel_tr p)))
                parcelles.
Proof.
  induction parcelles as [|p rest IH]; intros data data' H.
  - simpl in H. injection H as <-. exists []. rewrite app_nil_r.
    repeat split; constructor.
  - destruct (sel_h2 p) as [header|] eqn:Eh;
      [|simpl in H; rewrite Eh in H; discriminate].
    destruct (html_relevant sections_filtre plans_filtre p) eqn:Er.
    + simpl in H. rewrite Eh in H. simpl in H.
      assert (Er0 := Er).
      unfold html_relevant in Er. rewrite Eh in Er.
      destruct (re_search html_header_re header) as [hm|]; [|discriminate].
      rewrite Er in H.
      destruct (sel_nom p) as [nom|] eqn:En; [|discriminate].
      destruct (sel_adresse p) as [adresse|] eqn:Ea; [|discriminate].
      simpl in H.
      destruct (html_lots (upper (group hm 1)) (group hm 2) nom adresse
                          (sel_tr p) data) as [d1|] eqn:El; [|discriminate].
      simpl in H. apply IH in H. destruct H as (new2 & -> & F2 & L2 & P2).
      apply html_lots_some in El.
      destruct El as (new1 & -> & L1 & F1 & Hrows).
      exists (new1 ++ new2). rewrite app_assoc. split; [reflexivity|].
      apply andb_true_iff in Er. destruct Er as [Is Ip].
      apply py_in_In in Is. apply py_in_In in Ip.
      repeat split.
      * apply Forall_app. split; [|exact F2].
        eapply Forall_impl; [|exact F1].
        intros r (E1 & E2 & _). exists (upper (group hm 1)), (group hm 2). auto.
      * simpl filter. rewrite Er0. simpl flat_map.
        rewrite !length_app, L1, L2. reflexivity.
      * constructor; [|exact P2]. split; [congruence|].
        intros _. repeat split; [congruence | congruence | exact Hrows].
    + rewrite (html_step_over p header rest data Eh Er) in H.
      apply IH in H. destruct H as (new & -> & F & L & P).
      exists new. repeat split; auto.
      * simpl filter. rewrite Er. exact L.
      * constructor; [|exact P]. split; [congruence|]. congruence.
Qed.

(** X13. The rows that [parse_html] gives back are within the filters,
    and there is one row for each table row of two cells in the parcels
    whose header passes the filters, no other. *)
Theorem X13_html_rows_within_filters (parcelles : list Parcelle) (h : Html) :
  parse_html sections_filtre plans_filtre parcelles = Ok h ->
  Forall (within_filters sections_filtre plans_filtre) (html_data h)
  /\ List.length (html_data h)
     = List.length
         (flat_map (fun p => filter two_cells (sel_tr p))
            (filter (html_relevant sections_filtre plans_filtre) parcelles)).
Proof.
  unfold parse_html. destruct parcelles as [|p rest].
  - intros [= <-]. simpl. split; [constructor | reflexivity].
  - destruct (html_parcelles sections_filtre plans_filtre (p :: rest) [])
      as [d|] eqn:E; [|discriminate].
    simpl. intros [= <-]. simpl.
    apply html_parcelles_some in E. destruct E as (new & -> & F & L & _).
    simpl. auto.
Qed.

(** X14. [parse_html] warns, and gives no row, exactly when there is no
    parcel container.  When it returns, every parcel has a header element,
    and every parcel whose header passes the filters has a name, an
    address and, in each row of two cells, a first cell with a lot number:
    anything else raises [AttributeError]. *)
Theorem X14_html_warning_and_errors :
  parse_html sections_filtre plans_filtre []
  = Ok {| warned := true; html_data := [] |}
  /\ forall (parcelles : list Parcelle) (h : Html),
      parse_html sections_filtre plans_filtre parcelles = Ok h ->
      (warned h = true <-> parcelles = [])
      /\ Forall (fun p =>
                   sel_h2 p <> None
                   /\ (html_relevant sections_filtre plans_filtre p = true ->
                       sel_nom p <> None /\ sel_adresse p <> None
                       /\ Forall (fun colonnes =>
                                    two_cells colonnes = true ->
                                    re_search html_lot_re (hd [] colonnes)
                                    <> None) (sel_tr p)))
                parcelles.
Proof.
  split; [reflexivity|].
  intros parcelles h. unfold parse_html. destruct parcelles as [|p rest].
  - intros [= <-]. simpl. split; [tauto | constructor].
  - destruct (html_parcelles sections_filtre plans_filtre (p :: rest) [])
      as [d|] eqn:E; [|discriminate].
    simpl. intros [= <-]. simpl.
    apply html_parcelles_some in E. destruct E as (new & _ & _ & _ & P).
    split; [split; discriminate | exact P].
Qed.

Lemma html_parcelles_app (p1 p2 : list Parcelle) :
  forall data : list Row,
    html_parcelles sections_filtre plans_filtre (p1 ++ p2) data
    = bind (html_parcelles sections_filtre plans_filtre p1 data)
           (html_parcelles sections_filtre plans_filtre p2).
Proof.
  induction p1 as [|p rest IH]; intros data; [reflexivity|].
  simpl. destruct (text (sel_h2 p)) as [header|]; simpl; [|reflexivity].
  destruct (re_search html_header_re header) as [hm|]; [|apply IH].
  destruct (py_in (upper (group hm 1)) sections_filtre
            && py_in (group hm 2) plans_filtre); [|apply IH].
  destruct (text (sel_nom p)); simpl; [|reflexivity].
  destruct (text (sel_adresse p)); simpl; [|reflexivity].
  destruct (html_lots _ _ _ _ _ _); simpl; [apply IH | reflexivity].
Qed.

(** X15. A parcel whose header does not pass the filters is not read
    beyond its header: its name, its address and its rows, present or
    not, well formed or not, do not change what [parse_html] does. *)
Theorem X15_html_outside_parcel_not_read
        (p1 p2 : list Parcelle) (p p' : Parcelle) :
  sel_h2 p = sel_h2 p' ->
  html_relevant sections_filtre plans_filtre p = false ->
  parse_html sections_filtre plans_filtre (p1 ++ p :: p2)
  = parse_html sections_filtre plans_filtre (p1 ++ p' :: p2).
Proof.
  intros Eh Er.
  assert (Er' : html_relevant sections_filtre plans_filtre p' = false).
  { unfold html_relevant in *. rewrite <- Eh. exact Er. }
  assert (E : forall data,
             html_parcelles sections_filtre plans_filtre (p :: p2) data
             = html_parcelles sections_filtre plans_filtre (p' :: p2) data).
  { intros data. destruct (sel_h2 p) as [header|] eqn:E1.
    - rewrite (html_step_over p header p2 data E1 Er).
      rewrite (html_step_over p' header p2 data (eq_sym Eh) Er').
      reflexivity.
    - simpl. rewrite <- Eh, E1. reflexivity. }
  unfold parse_html.
  assert (E' : html_parcelles sections_filtre plans_filtre (p1 ++ p :: p2) []
               = html_parcelles sections_filtre plans_filtre (p1 ++ p' :: p2) []).
  { rewrite !html_parcelles_app.
    destruct (html_parcelles sections_filtre plans_filtre p1 []); simpl;
      [apply E | reflexivity]. }
  destruct p1 as [|q p1]; simpl app in *; rewrite E'; reflexivity.
Qed.

End Further.

(** * The further properties at sample documents *)

Lemma address_lines_are_address_lines :
  address_line (U := latin1_db) (py "1 RUE DE LA PAIX")
  /\ address_line (U := latin1_db) (py "75001 PARIS").
Proof. split; apply is_address_iff; vm_compute; reflexivity. Defined.

(** X4 at a name and a lot line under a header of section ZZ. *)
Lemma X4_witness :
  process_lines (U := latin1_db) [py "AC"] [py "124"] initial
    (other_header :: [py "DUPONT JEAN"; lot_line] ++ sample_lines)
  = process_lines (U := latin1_db) [py "AC"] [py "124"] initial
      (other_header :: sample_lines).
Proof.
  eapply (@X4_outside_parcel_leaves_no_trace latin1_db [py "AC"] [py "124"]
            initial other_header).
  - reflexivity.
  - vm_compute. reflexivity.
  - repeat constructor.
Defined.

(** X7 at DUPONT JEAN with an address on two lines. *)
Lemma X7_witness :
  exists r,
    data (process_lines (U := latin1_db) [py "AC"] [py "124"] (in_parcel [] [])
            [py "DUPONT JEAN"; py "1 RUE DE LA PAIX"; py "75001 PARIS"; lot_line])
    = [] ++ [r]
    /\ col_Proprietaires r = strip (py "DUPONT JEAN")
    /\ col_Adresse_Postale_Proprietaire r = strip (py "1 RUE DE LA PAIX").
Proof.
  apply (@X7_first_address_line_only latin1_db [py "AC"] [py "124"]
           (in_parcel [] []) (py "DUPONT JEAN") (py "1 RUE DE LA PAIX")
           (py "75001 PARIS") lot_line eq_refl (or_introl eq_refl)
           (proj1 names_are_owner_names)
           (proj1 address_lines_are_address_lines)
           (proj2 address_lines_are_address_lines)
           lot_line_is_lot_share).
Defined.

(** X8 at DUPONT JEAN, an address, DUPONT MARIE and a lot line. *)
Lemma X8_witness :
  exists r,
    data (process_lines (U := latin1_db) [py "AC"] [py "124"] (in_parcel [] [])
            [py "DUPONT JEAN"; py "1 RUE DE LA PAIX"; py "DUPONT MARIE"; lot_line])
    = [] ++ [r]
    /\ col_Proprietaires r = strip (py "DUPONT MARIE")
    /\ col_Adresse_Postale_Proprietaire r = [].
Proof.
  apply (@X8_name_after_address_opens_block latin1_db [py "AC"] [py "124"]
           (in_parcel [] []) (py "DUPONT JEAN") (py "1 RUE DE LA PAIX")
           (py "DUPONT MARIE") lot_line eq_refl (or_introl eq_refl)
           (proj1 names_are_owner_names)
           (proj1 address_lines_are_address_lines)
           (proj2 names_are_owner_names)
           lot_line_is_lot_share).
Defined.

(** X9 at CHARLOTTE DUPONT. *)
Lemma X9_witness :
  py "CHAR" ++ py "LOT" ++ py "TE DUPONT" = py "CHARLOTTE DUPONT"
  /\ is_owner_name (U := latin1_db) (py "CHAR" ++ py "LOT" ++ py "TE DUPONT")
     = false.
Proof.
  split; [reflexivity|].
  apply (@X9_name_with_lot_rejected latin1_db [py "AC"] [py "124"]
           (in_parcel [] []) (py "CHAR") (py "LOT") (py "TE DUPONT") eq_refl).
Defined.

(** X12 at the text field "124, 0125 ,126". *)
Lemma X12_witness :
  In (strip (py " 0125 "))
     (clean_plans (py "124" ++ [COMMA] ++ py " 0125 " ++ [COMMA] ++ py "126")).
Proof.
  apply (proj1 (proj2 (@X12_filters_from_text_fields latin1_db))
           (py "124") (py " 0125 ") (py "126")).
  intros F. repeat (destruct F as [F | F]; [discriminate F|]). exact F.
Defined.

(** X13 at the sample parcel and a parcel of another section. *)
Lemma X13_witness :
  exists h,
    parse_html (U := latin1_db) [py "AC"] [py "124"]
      [other_parcelle; sample_parcelle] = Ok h
    /\ Forall (within_filters [py "AC"] [py "124"]) (html_data h)
    /\ List.length (html_data h) = 1.
Proof.
  eexists. split; [vm_compute; reflexivity|].
  apply (@X13_html_rows_within_filters latin1_db [py "AC"] [py "124"]
           [other_parcelle; sample_parcelle]).
  vm_compute. reflexivity.
Defined.

(** X14 at the same two parcels. *)
Lemma X14_witness :
  exists h,
    parse_html (U := latin1_db) [py "AC"] [py "124"]
      [other_parcelle; sample_parcelle] = Ok h
    /\ (warned h = true <-> [other_parcelle; sample_parcelle] = []).
Proof.
  eexists. split; [vm_compute; reflexivity|].
  apply (proj2 (@X14_html_warning_and_errors latin1_db [py "AC"] [py "124"])
           [other_parcelle; sample_parcelle]).
  vm_compute. reflexivity.
Defined.

(** X15 at a parcel of another section, with and without its content. *)
Lemma X15_witness :
  parse_html (U := latin1_db) [py "AC"] [py "124"]
    ([sample_parcelle] ++ other_parcelle :: [])
  = parse_html (U := latin1_db) [py "AC"] [py "124"]
      ([sample_parcelle] ++ bare_parcelle :: []).
Proof.
  apply (@X15_html_outside_parcel_not_read latin1_db [py "AC"] [py "124"]
           [sample_parcelle] [] other_parcelle bare_parcelle eq_refl).
  vm_compute. reflexivity.
Defined.
